(** * Sensestr device and viewer services: ownership policy and resource lifecycle

    A shallow embedding of the request handlers of the two hapi services
    of the repository:

    - the device service ([src/server.js], routes [/devices] and
      [/devices/{id}]);
    - the viewer service with the event API plugin
      ([src/unnamed/part_000], routes [/viewers] and [/viewers/{id}]).
      [src/server.js] also carries an earlier copy of the viewer
      service; its handlers are the ones below without the event
      records.

    A handler is a computation in a state-and-exception monad over a
    [world]: the MongoDB collections, the process-wide event API token
    and the messages pushed on the event socket.  JavaScript objects
    (payloads, documents, response bodies) are finite maps from property
    names to values. *)

From Stdlib Require Import ZArith String Ascii List Bool Lia.
From stdpp Require Import base gmap strings list fin_maps.

Local Open Scope string_scope.
Local Open Scope list_scope.

(** ** JavaScript values *)

(** The values that flow through the handlers: [undefined], [null],
    strings, MongoDB ObjectIDs (by their 24 lower-case hex digits),
    [Date] objects (milliseconds since the epoch) and arrays. *)
#[local] Unset Elimination Schemes.
Inductive jsval : Type :=
| JUndefined
| JNull
| JStr (s : string)
| JObjectID (hex : string)
| JDate (ms : Z)
| JArr (items : list jsval).
#[local] Set Elimination Schemes.

(** A JavaScript object used as a record of properties. *)
Abbreviation doc := (gmap string jsval).

(** [o.k]: a missing property reads as [undefined]. *)
Definition prop (o : doc) (k : string) : jsval :=
  match o !! k with
  | Some v => v
  | None => JUndefined
  end.

(** Truthiness, as used by [if (x)], [x ? a : b] and [x && y]. *)
Definition truthy (v : jsval) : bool :=
  match v with
  | JUndefined | JNull => false
  | JStr s => negb (String.eqb s "")
  | JObjectID _ | JDate _ | JArr _ => true
  end.

(** [a === b].  Primitives compare by value.  ObjectIDs, dates and arrays
    are objects and compare by reference; the operands the handlers
    compare come from different sources (payload, token, database), so
    two objects are never the same reference. *)
Definition strict_eq (a b : jsval) : bool :=
  match a, b with
  | JUndefined, JUndefined => true
  | JNull, JNull => true
  | JStr s, JStr t => String.eqb s t
  | _, _ => false
  end.

(** Equality of stored values, as MongoDB compares them in a query. *)
Fixpoint jsval_eqb (a b : jsval) {struct a} : bool :=
  match a, b with
  | JUndefined, JUndefined => true
  | JNull, JNull => true
  | JStr s, JStr t => String.eqb s t
  | JObjectID s, JObjectID t => String.eqb s t
  | JDate m, JDate n => Z.eqb m n
  | JArr l, JArr r =>
      (fix eq_items (l r : list jsval) {struct l} : bool :=
         match l, r with
         | [], [] => true
         | x :: l', y :: r' => jsval_eqb x y && eq_items l' r'
         | _, _ => false
         end) l r
  | _, _ => false
  end.

(** ** Errors and completions *)

Inductive js_error : Type :=
| TypeError (message : string)
| ReferenceError (message : string)
| PlainError (message : string)
| MongoError (message : string).

(** How the evaluation of a piece of handler code ends: normally with a
    value, by a thrown exception, or [Unmodelled] when it leaves the
    fragment of JavaScript and of the driver that this development
    describes (for instance the text that [toString] gives a [Date]). *)
Inductive completion (A : Type) : Type :=
| Normal (a : A)
| Throw (e : js_error)
| Unmodelled.
Arguments Normal {A} a.
Arguments Throw {A} e.
Arguments Unmodelled {A}.

(** Sequencing: an exception (or leaving the fragment) ends the
    evaluation. *)
Definition and_then {A B} (c : completion A) (k : A -> completion B)
  : completion B :=
  match c with
  | Normal a => k a
  | Throw e => Throw e
  | Unmodelled => Unmodelled
  end.

Declare Scope completion_scope.
Delimit Scope completion_scope with completion.
Notation "x <~ c ;; k" := (and_then c (fun x => k))
  (at level 100, c at next level, right associativity) : completion_scope.
Local Open Scope completion_scope.

(** ** Built-in prototypes *)

(** The method names of [Array.prototype] and [Set.prototype] in the
    ECMAScript edition of the runtime (Node 15). *)
Definition Array_prototype : list string :=
  [ "concat"; "copyWithin"; "entries"; "every"; "fill"; "filter"; "find";
    "findIndex"; "flat"; "flatMap"; "forEach"; "includes"; "indexOf";
    "join"; "keys"; "lastIndexOf"; "map"; "pop"; "push"; "reduce";
    "reduceRight"; "reverse"; "shift"; "slice"; "some"; "sort"; "splice";
    "toLocaleString"; "toString"; "unshift"; "values" ].

Definition Set_prototype : list string :=
  [ "add"; "clear"; "delete"; "entries"; "forEach"; "has"; "keys";
    "values" ].

(** Calling [receiver.name(...)].  When the prototype has no method of
    that name the property reads as [undefined] and the call throws.
    What the existing methods compute is not described here. *)
Definition call_method (receiver : string) (proto : list string)
    (name : string) : completion jsval :=
  if existsb (String.eqb name) proto then Unmodelled
  else Throw (TypeError (receiver +:+ "." +:+ name +:+ " is not a function")).

(** Reading an identifier that the handler itself does not bind: when no
    enclosing scope declares it either, the read throws. *)
Definition free_identifier (scope : list string) (name : string)
  : completion jsval :=
  if existsb (String.eqb name) scope then Unmodelled
  else Throw (ReferenceError (name +:+ " is not defined")).

(** ** ObjectIDs *)

Definition is_hex (c : ascii) : bool :=
  let n := nat_of_ascii c in
  (Nat.leb 48 n && Nat.leb n 57) || (Nat.leb 65 n && Nat.leb n 70)
  || (Nat.leb 97 n && Nat.leb n 102).

Definition lower_hex (c : ascii) : ascii :=
  let n := nat_of_ascii c in
  if Nat.leb 65 n && Nat.leb n 70 then ascii_of_nat (n + 32) else c.

Fixpoint string_forall (p : ascii -> bool) (s : string) : bool :=
  match s with
  | EmptyString => true
  | String c s' => p c && string_forall p s'
  end.

Fixpoint string_map (f : ascii -> ascii) (s : string) : string :=
  match s with
  | EmptyString => EmptyString
  | String c s' => String (f c) (string_map f s')
  end.

(** [Joi.objectId()]: a string of 24 hexadecimal digits. *)
Definition Joi_objectId (s : string) : bool :=
  Nat.eqb (String.length s) 24 && string_forall is_hex s.

(** [new ObjectID(s)] for a string [s].  24 hex digits denote the id
    with these digits; a 12-character string is taken as raw bytes,
    which is outside this development; any other string is rejected by
    the driver. *)
Definition ObjectID (s : string) : completion jsval :=
  if Joi_objectId s then Normal (JObjectID (string_map lower_hex s))
  else if Nat.eqb (String.length s) 12 then Unmodelled
  else Throw (PlainError
    "Argument passed in must be a single String of 12 bytes or a string of 24 hex characters").

(** [v.toString()] for the receivers that occur as [_id] or [id]. *)
Definition toString (v : jsval) : completion jsval :=
  match v with
  | JObjectID h => Normal (JStr h)
  | JStr s => Normal (JStr s)
  | JUndefined =>
      Throw (TypeError "Cannot read property 'toString' of undefined")
  | JNull =>
      Throw (TypeError "Cannot read property 'toString' of null")
  | JDate _ | JArr _ => Unmodelled
  end.

(** [new Set(iterable)]: the distinct elements in first-occurrence order
    (elements are compared as [===] does; no [NaN] or signed zero occurs
    here). *)
Definition distinct (l : list jsval) : list jsval :=
  fold_left (fun seen x => if existsb (strict_eq x) seen then seen
                           else seen ++ [x]) l [].

Definition new_Set (iterable : jsval) : completion (list jsval) :=
  match iterable with
  | JUndefined | JNull => Normal []
  | JArr l => Normal (distinct l)
  | JStr s =>
      Normal (distinct (map (fun c => JStr (String c EmptyString))
                            (list_ascii_of_string s)))
  | JObjectID _ | JDate _ => Throw (TypeError "object is not iterable")
  end.

(** An object literal [{k1: v1, ..., kn: vn}]; the spread
    [{...o, k1: v1, ...}] is [object [...] ∪ o] (the literal's own
    properties win). *)
Definition object (properties : list (string * jsval)) : doc :=
  list_to_map properties.
Arguments object : simpl never.

(** ** Boom errors and responses *)

Module Boom.
Record t : Type := Build
  { statusCode : Z; error : string; message : string }.
Definition unauthorized (m : string) : t := Build 401 "Unauthorized" m.
Definition badRequest (m : string) : t := Build 400 "Bad Request" m.
Definition notFound (m : string) : t := Build 404 "Not Found" m.
End Boom.

Module Metadata.
Record t : Type := Build
  { count : nat; skip : nat; limit : nat; total : nat }.
End Metadata.

(** What a handler hands to [h.response]: a resource object, a Boom
    error, or the page [{metadata, results}] of a list route.  What the
    framework makes of a wrapped value afterwards (status line,
    validation of the response against the route's schema) is not part
    of the handlers. *)
Inductive response : Type :=
| Resource (o : doc)
| Failure (b : Boom.t)
| Page (metadata : Metadata.t) (results : list doc).

(** ** Requests *)

Module Credentials.
(** [request.auth.credentials], as the [validate] function of the auth
    strategy builds it: [scopes] is [token.scopes || []], an array. *)
Record t : Type := Build
  { isMachine : bool; user : jsval; scopes : list jsval }.
End Credentials.

Module Query.
(** [request.query] after validation: [skip] and [limit] carry their
    defaults and are taken as whole numbers; [ownerId] and [sessionId]
    may be absent. *)
Record t : Type := Build
  { skip : nat; limit : nat;
    ownerId : option string; sessionId : option string }.
End Query.

Record request : Type := Request
  { payload : doc;
    params_id : string;
    query : Query.t;
    credentials : Credentials.t }.

(** The values the runtime hands out during one request: the id that
    [new ObjectID()] generates and the instants the two [new Date()]
    read (an update reads only the first). *)
Record runtime : Type := Runtime
  { generated_id : string; now : Z; now' : Z }.

(** ** The world: database, event API state, socket *)

Module Event.
(** The record a viewer route pushes on the event socket. *)
Record t : Type := Build
  { event : string; token : jsval; viewerId : jsval; viewer : doc }.
End Event.

Record world : Type := World
  { db : gmap string (list doc);
    eventApi_token : jsval;
    socket_emitted : list (string * Event.t) }.

Definition collection (name : string) (w : world) : list doc :=
  match db w !! name with
  | Some l => l
  | None => []
  end.

Definition set_collection (name : string) (l : list doc) (w : world) : world :=
  World (<[name := l]> (db w)) (eventApi_token w) (socket_emitted w).
Arguments set_collection : simpl never.

(** ** The handler monad *)

Definition M (A : Type) : Type := world -> completion A * world.

Definition ret {A} (a : A) : M A := fun w => (Normal a, w).

Definition bind {A B} (m : M A) (k : A -> M B) : M B :=
  fun w =>
    match m w with
    | (Normal a, w') => k a w'
    | (Throw e, w') => (Throw e, w')
    | (Unmodelled, w') => (Unmodelled, w')
    end.

Definition lift {A} (c : completion A) : M A := fun w => (c, w).

Declare Scope handler_scope.
Delimit Scope handler_scope with handler.
Notation "x <- m ;; k" := (bind m (fun x => k))
  (at level 100, m at next level, right associativity) : handler_scope.
Notation "m ;;; k" := (bind m (fun _ => k))
  (at level 100, right associativity) : handler_scope.
Local Open Scope handler_scope.

(** [h.response(result)].  The toolkit wraps a plain value.  It does not
    wrap an error: its first statements are
    [Hoek.assert(result instanceof Error === false, 'Cannot wrap an
    error')], and a Boom error is an [Error], so the call throws and the
    handler that evaluates [return h.response(Boom.notFound(...))] ends
    by that exception. *)
Definition cannot_wrap : js_error := PlainError "Cannot wrap an error".

Definition h_response (result : response) : M response :=
  lift (match result with
        | Failure _ => Throw cannot_wrap
        | Resource _ | Page _ _ => Normal result
        end).

(** ** The document store *)

(** One clause [{field: q}] of a query against the stored value of the
    field: equal to [q], or an array with an element equal to [q]; a
    [null] query also matches a missing field. *)
Definition field_match (q : jsval) (stored : option jsval) : bool :=
  match stored with
  | Some v =>
      jsval_eqb v q
      || match v with
         | JArr l => existsb (fun x => jsval_eqb x q) l
         | _ => false
         end
  | None => match q with JNull | JUndefined => true | _ => false end
  end.

(** A document matches a query when it matches each of its clauses. *)
Definition matches (search d : doc) : bool :=
  bool_decide (map_Forall (fun k q => field_match q (d !! k) = true) search).

Fixpoint first_match (search : doc) (l : list doc) : option doc :=
  match l with
  | [] => None
  | d :: l' => if matches search d then Some d else first_match search l'
  end.

(** [$set] on the first matching document. *)
Fixpoint update_first (search set : doc) (l : list doc) : list doc :=
  match l with
  | [] => []
  | d :: l' =>
      if matches search d then (set ∪ d) :: l'
      else d :: update_first search set l'
  end.

Fixpoint delete_first (search : doc) (l : list doc) : list doc :=
  match l with
  | [] => []
  | d :: l' =>
      if matches search d then l' else d :: delete_first search l'
  end.

Definition has_id (i : jsval) (d : doc) : bool :=
  match d !! "_id" with
  | Some j => jsval_eqb j i
  | None => false
  end.

(** What the driver writes for a value.  BSON has no [undefined]: with
    the driver's default [ignoreUndefined: false] (the settings of the
    [hapi-mongodb] plugin do not change it) the serializer writes [null]
    in its place, in a document and in an array. *)
Fixpoint bson (v : jsval) : jsval :=
  match v with
  | JUndefined => JNull
  | JArr items => JArr (map bson items)
  | JNull | JStr _ | JObjectID _ | JDate _ => v
  end.

(** The document as it is sent to the server. *)
Definition serialize (d : doc) : doc := bson <$> d.

(** [db.collection(name).findOne(search)]: the first match, or [null]. *)
Definition findOne (name : string) (search : doc) : M (option doc) :=
  fun w => (Normal (first_match search (collection name w)), w).

(** [db.collection(name).insertOne(d)]: the serialized document is
    stored; the object [d] of the handler stays as it is.  [_id] is
    unique in a collection: a second document with the same [_id] is
    refused.  A document without [_id] would get one from the driver,
    which no handler relies on. *)
Definition insertOne (name : string) (d : doc) : M unit :=
  fun w =>
    match d !! "_id" with
    | None => (Unmodelled, w)
    | Some i =>
        if existsb (has_id i) (collection name w)
        then (Throw (MongoError "E11000 duplicate key error collection"), w)
        else (Normal tt,
              set_collection name (collection name w ++ [serialize d]) w)
    end.

(** [db.collection(name).updateOne(search, {$set: set})]: the update
    document is serialized as well. *)
Definition updateOne (name : string) (search set : doc) : M unit :=
  fun w =>
    (Normal tt,
     set_collection name
       (update_first search (serialize set) (collection name w)) w).

(** [db.collection(name).deleteOne(search)]. *)
Definition deleteOne (name : string) (search : doc) : M unit :=
  fun w =>
    (Normal tt,
     set_collection name (delete_first search (collection name w)) w).

Module Cursor.
(** [find(search)] with its [skip] and [limit] settings; [limit 0]
    means no limit. *)
Record t : Type := Build
  { matched : list doc; cursorSkip : nat; cursorLimit : nat }.

Definition skip (n : nat) (c : t) : t :=
  Build (matched c) n (cursorLimit c).
Definition limit (n : nat) (c : t) : t :=
  Build (matched c) (cursorSkip c) n.

Definition window (c : t) : list doc :=
  let rest := drop (cursorSkip c) (matched c) in
  if Nat.eqb (cursorLimit c) 0 then rest else take (cursorLimit c) rest.

(** [cursor.count(applySkipLimit)]: the handlers pass the truthy
    [{applySkipLimit: true}] for the page count and nothing
    ([undefined], falsy) for the total. *)
Definition count (applySkipLimit : bool) (c : t) : nat :=
  if applySkipLimit then length (window c) else length (matched c).

Definition toArray (c : t) : list doc := window c.
End Cursor.

(** [db.collection(name).find(search)], in store order. *)
Definition find (name : string) (search : doc) : M Cursor.t :=
  fun w =>
    (Normal (Cursor.Build (List.filter (matches search) (collection name w)) 0 0),
     w).

(** [socket.emit(name, record)]. *)
Definition socket_emit (name : string) (e : Event.t) : M unit :=
  fun w =>
    (Normal tt,
     World (db w) (eventApi_token w) (socket_emitted w ++ [(name, e)])).

(** [request.eventApi.token]. *)
Definition eventApi_token_read : M jsval :=
  fun w => (Normal (eventApi_token w), w).

(** ** Code shared by the routes *)

(** [doc.id = doc._id.toString(); delete doc._id;] *)
Definition id_from__id (d : doc) : completion doc :=
  s <~ toString (prop d "_id") ;;
  Normal (delete "_id" (<["id" := s]> d)).

(** [docs.map(callback)] for a callback that changes its argument in
    place: the elements are visited in order and the first exception
    ends the loop. *)
Fixpoint for_each (f : doc -> completion doc) (l : list doc)
  : completion (list doc) :=
  match l with
  | [] => Normal []
  | d :: l' =>
      d' <~ f d ;;
      r <~ for_each f l' ;;
      Normal (d' :: r)
  end.

(** The first guard of every mutating route, with [baseline] the
    creator on a create and the current owner on an update:
    [payload.ownerId && payload.ownerId !== baseline &&
     (!credentials.isMachine || !credentials.scopes.contains("impersonate_user"))].
    [&&] and [||] evaluate their right operand only when needed. *)
Definition cannot_set_owner (ownerId : jsval) (baseline : completion jsval)
    (c : Credentials.t) : completion bool :=
  if truthy ownerId then
    b <~ baseline ;;
    if negb (strict_eq ownerId b) then
      if negb (Credentials.isMachine c) then Normal true
      else
        has <~ call_method "request.auth.credentials.scopes"
                           Array_prototype "contains" ;;
        Normal (negb (truthy has))
    else Normal false
  else Normal false.

(** The second guard:
    [payload.ownerId && payload.ownerId === credentials.user &&
     credentials.isMachine]. *)
Definition machine_owns_itself (ownerId : jsval) (c : Credentials.t) : bool :=
  truthy ownerId && strict_eq ownerId (Credentials.user c)
  && Credentials.isMachine c.

Definition query_param (o : option string) : jsval :=
  match o with
  | Some s => JStr s
  | None => JUndefined
  end.

(** The query of a list route:
    [if (ownerId) search.ownerId = ownerId;
     if (sessionId) search.sessions = new ObjectID(sessionId);] *)
Definition list_search (q : Query.t) : completion doc :=
  let search : doc := ∅ in
  let search :=
    if truthy (query_param (Query.ownerId q))
    then <["ownerId" := query_param (Query.ownerId q)]> search
    else search in
  match Query.sessionId q with
  | Some s =>
      if truthy (JStr s) then
        o <~ ObjectID s ;;
        Normal (<["sessions" := o]> search)
      else Normal search
  | None => Normal search
  end.

(** The body of a list route, the same for both collections. *)
Definition list_route (name : string) (request : request) : M response :=
  let skip := Query.skip (query request) in
  let limit := Query.limit (query request) in
  search <- lift (list_search (query request)) ;;
  found <- find name search ;;
  let cursor := Cursor.limit limit (Cursor.skip skip found) in
  let count := Cursor.count true cursor in
  let total := Cursor.count false cursor in
  let docs := Cursor.toArray cursor in
  docs <- lift (for_each id_from__id docs) ;;
  h_response (Page (Metadata.Build count skip limit total) docs).

(** ** The viewer service ([src/unnamed/part_000]) *)

Module Viewers.

(** [GET /viewers] (part_000, lines 181-259). *)
Definition GET_viewers (request : request) : M response :=
  list_route "viewers" request.

(** [POST /viewers] (part_000, lines 261-350). *)
Definition POST_viewers (rt : runtime) (request : request) : M response :=
  let payload := payload request in
  let cred := credentials request in
  token <- eventApi_token_read ;;
  let id := JObjectID (generated_id rt) in
  let createdDate := JDate (now rt) in
  let updatedDate := JDate (now' rt) in
  let creatorId := Credentials.user cred in
  let ownerId :=
    if truthy (prop payload "ownerId") then prop payload "ownerId"
    else creatorId in
  denied <- lift (cannot_set_owner (prop payload "ownerId")
                    (Normal creatorId) cred) ;;
  if denied then
    h_response (Failure (Boom.unauthorized
      "You cannot create a viewer for another user without the impersonate_user scope."))
  else if machine_owns_itself (prop payload "ownerId") cred then
    h_response (Failure (Boom.badRequest
      "A machine cannot set themselves as the owner of this resource."))
  else
    let viewer := object
      [ ("_id", id);
        ("createdDate", createdDate);
        ("updatedDate", updatedDate);
        ("creatorId", Credentials.user cred);
        ("updatorId", Credentials.user cred);
        ("ownerId", ownerId);
        ("sessionId", prop payload "sessionId") ] in
    insertOne "viewers" viewer ;;;
    s <- lift (toString id) ;;
    let viewer := delete "_id" (<["id" := s]> viewer) in
    let event := Event.Build "viewer created" token (prop viewer "id") viewer in
    socket_emit (Event.event event) event ;;;
    h_response (Resource viewer).

(** [GET /viewers/{id}] (part_000, lines 352-390). *)
Definition GET_viewers_id (request : request) : M response :=
  let id := params_id request in
  oid <- lift (ObjectID id) ;;
  let search := object [("_id", oid)] in
  viewer <- findOne "viewers" search ;;
  match viewer with
  | Some viewer =>
      viewer <- lift (id_from__id viewer) ;;
      h_response (Resource viewer)
  | None =>
      h_response (Failure (Boom.notFound ("Viewer with id " +:+ id +:+ " not found.")))
  end.

(** [PUT /viewers/{id}] (part_000, lines 392-495).  The updated viewer
    is the document read from the store, spread under the written
    properties; nothing gives it an [id]. *)
Definition PUT_viewers_id (rt : runtime) (request : request) : M response :=
  let payload := payload request in
  let cred := credentials request in
  token <- eventApi_token_read ;;
  let id := params_id request in
  oid <- lift (ObjectID id) ;;
  let search := object [("_id", oid)] in
  viewer <- findOne "viewers" search ;;
  match viewer with
  | Some viewer =>
      let updatedDate := JDate (now rt) in
      let updatorId := Credentials.user cred in
      let ownerId :=
        if truthy (prop payload "ownerId") then prop payload "ownerId"
        else prop viewer "ownerId" in
      denied <- lift (cannot_set_owner (prop payload "ownerId")
                        (Normal (prop viewer "ownerId")) cred) ;;
      if denied then
        h_response (Failure (Boom.unauthorized
          "You cannot change a viewer owner to another user without the impersonate_user scope."))
      else if machine_owns_itself (prop payload "ownerId") cred then
        h_response (Failure (Boom.badRequest
          "A machine cannot set themselves as the owner of this resource."))
      else
        updateOne "viewers" search (object
          [ ("updatedDate", updatedDate);
            ("updatorId", updatorId);
            ("ownerId", ownerId);
            ("sessionId", prop payload "sessionId") ]) ;;;
        let updatedViewer := object
          [ ("updatedDate", updatedDate);
            ("updatorId", updatorId);
            ("ownerId", ownerId);
            ("sessionId", prop payload "sessionId") ] ∪ viewer in
        let event := Event.Build "viewer updated" token
                       (prop updatedViewer "id") updatedViewer in
        socket_emit (Event.event event) event ;;;
        h_response (Resource updatedViewer)
  | None =>
      h_response (Failure (Boom.notFound ("Viewer with id " +:+ id +:+ " not found.")))
  end.

(** [DELETE /viewers/{id}] (part_000, lines 497-549). *)
Definition DELETE_viewers_id (request : request) : M response :=
  token <- eventApi_token_read ;;
  let id := params_id request in
  oid <- lift (ObjectID id) ;;
  let search := object [("_id", oid)] in
  viewer <- findOne "viewers" search ;;
  match viewer with
  | Some viewer =>
      viewer <- lift (id_from__id viewer) ;;
      deleteOne "viewers" search ;;;
      let event := Event.Build "viewer deleted" token (prop viewer "id") viewer in
      socket_emit (Event.event event) event ;;;
      h_response (Resource viewer)
  | None =>
      h_response (Failure (Boom.notFound ("Viewer with id " +:+ id +:+ " not found.")))
  end.

End Viewers.

(** ** The device service ([src/server.js]) *)

Module Devices.

(** The names declared in the scopes that enclose the body of the
    [POST /devices] handler: the handler's parameters and locals, the
    local of [init], and the top level of the module.  [creatorId] is
    not among them (the viewer handler declares it, the device handler
    does not), and it is not a global of the runtime either. *)
Definition POST_devices_scope : list string :=
  [ "request"; "h"; "payload"; "db"; "ObjectID"; "id"; "createdDate";
    "updatedDate"; "ownerId"; "device";
    "server";
    "Hapi"; "Boom"; "Joi"; "HapiMongoDB"; "HapiPino"; "HapiJwt";
    "mongoUsername"; "mongoPassword"; "mongoHost"; "mongoUrl"; "init" ].

(** [GET /devices] (server.js, lines 111-190). *)
Definition GET_devices (request : request) : M response :=
  list_route "devices" request.

(** [POST /devices] (server.js, lines 192-277).  Both the initialiser
    of [ownerId] and the first guard read [creatorId]. *)
Definition POST_devices (rt : runtime) (request : request) : M response :=
  let payload := payload request in
  let cred := credentials request in
  let id := JObjectID (generated_id rt) in
  let createdDate := JDate (now rt) in
  let updatedDate := JDate (now' rt) in
  let creatorId := free_identifier POST_devices_scope "creatorId" in
  ownerId <- lift (if truthy (prop payload "ownerId")
                   then Normal (prop payload "ownerId") else creatorId) ;;
  denied <- lift (cannot_set_owner (prop payload "ownerId") creatorId cred) ;;
  if denied then
    h_response (Failure (Boom.unauthorized
      "You cannot create a device for another user without the impersonate_user scope."))
  else if machine_owns_itself (prop payload "ownerId") cred then
    h_response (Failure (Boom.badRequest
      "A machine cannot set themselves as the owner of this resource."))
  else
    let device := object
      [ ("_id", id);
        ("createdDate", createdDate);
        ("updatedDate", updatedDate);
        ("creatorId", Credentials.user cred);
        ("updatorId", Credentials.user cred);
        ("ownerId", ownerId);
        ("name", prop payload "name");
        ("description", prop payload "description");
        ("sessions", prop payload "sessions") ] in
    insertOne "devices" device ;;;
    s <- lift (toString id) ;;
    let device := delete "_id" (<["id" := s]> device) in
    h_response (Resource device).

(** [GET /devices/{id}] (server.js, lines 279-318). *)
Definition GET_devices_id (request : request) : M response :=
  let id := params_id request in
  oid <- lift (ObjectID id) ;;
  let search := object [("_id", oid)] in
  device <- findOne "devices" search ;;
  match device with
  | Some device =>
      device <- lift (id_from__id device) ;;
      h_response (Resource device)
  | None =>
      h_response (Failure (Boom.notFound ("Device with id " +:+ id +:+ " not found.")))
  end.

(** [PUT /devices/{id}] (server.js, lines 320-422).  [sessionSet] is a
    [Set], and [sessionSet.map(...)] is evaluated before the guards. *)
Definition PUT_devices_id (rt : runtime) (request : request) : M response :=
  let payload := payload request in
  let cred := credentials request in
  let id := params_id request in
  oid <- lift (ObjectID id) ;;
  let search := object [("_id", oid)] in
  device <- findOne "devices" search ;;
  match device with
  | Some device =>
      let updatedDate := JDate (now rt) in
      let updatorId := Credentials.user cred in
      let ownerId :=
        if truthy (prop payload "ownerId") then prop payload "ownerId"
        else prop device "ownerId" in
      sessionSet <- lift (new_Set (prop payload "sessions")) ;;
      sessionIds <- lift (call_method "sessionSet" Set_prototype "map") ;;
      denied <- lift (cannot_set_owner (prop payload "ownerId")
                        (Normal (prop device "ownerId")) cred) ;;
      if denied then
        h_response (Failure (Boom.unauthorized
          "You cannot change a session owner to another user without the impersonate_user scope."))
      else if machine_owns_itself (prop payload "ownerId") cred then
        h_response (Failure (Boom.badRequest
          "A machine cannot set themselves as the owner of this resource."))
      else
        updateOne "devices" search (object
          [ ("updatedDate", updatedDate);
            ("updatorId", updatorId);
            ("ownerId", ownerId);
            ("name", prop payload "name");
            ("description", prop payload "description");
            ("sessions", sessionIds) ]) ;;;
        h_response (Resource (object
          [ ("updatedDate", updatedDate);
            ("updatorId", updatorId);
            ("ownerId", ownerId);
            ("name", prop payload "name");
            ("description", prop payload "description");
            ("sessions", JArr sessionSet) ] ∪ device))
  | None =>
      h_response (Failure (Boom.notFound ("Device with id " +:+ id +:+ " not found.")))
  end.

(** [DELETE /devices/{id}] (server.js, lines 424-465): the device is
    read and answered; the handler has no [deleteOne]. *)
Definition DELETE_devices_id (request : request) : M response :=
  let id := params_id request in
  oid <- lift (ObjectID id) ;;
  let search := object [("_id", oid)] in
  device <- findOne "devices" search ;;
  match device with
  | Some device =>
      device <- lift (id_from__id device) ;;
      h_response (Resource device)
  | None =>
      h_response (Failure (Boom.notFound ("Device with id " +:+ id +:+ " not found.")))
  end.

End Devices.

(** ** Routes *)

(** The five routes that each service registers with [server.route]
    (next to [GET /health]): on the collection path [GET] and [POST], on
    the item path [GET], [PUT] and [DELETE]. *)
Inductive route : Type :=
| GET_collection
| POST_collection
| GET_item
| PUT_item
| DELETE_item.

Inductive service : Type :=
| devices
| viewers.

Definition collection_of (s : service) : string :=
  match s with
  | devices => "devices"
  | viewers => "viewers"
  end.

Definition handler (s : service) (r : route) (rt : runtime) (request : request)
  : M response :=
  match s, r with
  | devices, GET_collection => Devices.GET_devices request
  | devices, POST_collection => Devices.POST_devices rt request
  | devices, GET_item => Devices.GET_devices_id request
  | devices, PUT_item => Devices.PUT_devices_id rt request
  | devices, DELETE_item => Devices.DELETE_devices_id request
  | viewers, GET_collection => Viewers.GET_viewers request
  | viewers, POST_collection => Viewers.POST_viewers rt request
  | viewers, GET_item => Viewers.GET_viewers_id request
  | viewers, PUT_item => Viewers.PUT_viewers_id rt request
  | viewers, DELETE_item => Viewers.DELETE_viewers_id request
  end.

(** ** Request validation (the Joi schemas of the routes) *)

(** [Joi.string()]: a non-empty string. *)
Definition Joi_string (v : jsval) : bool :=
  match v with
  | JStr s => negb (String.eqb s "")
  | _ => false
  end.

Definition Joi_objectId_value (v : jsval) : bool :=
  match v with
  | JStr s => Joi_objectId s
  | _ => false
  end.

(** [Joi.array().items(Joi.objectId())] *)
Definition Joi_array_of_objectId (v : jsval) : bool :=
  match v with
  | JArr l => forallb Joi_objectId_value l
  | _ => false
  end.

(** [s.length], the number of UTF-16 code units of a string.  A string
    is held here as the bytes of its UTF-8 encoding: a continuation byte
    ([10xxxxxx]) adds nothing, the first byte of a four-byte sequence
    (a code point outside the basic plane, a surrogate pair) counts two,
    any other first byte one. *)
Fixpoint js_length (s : string) : nat :=
  match s with
  | EmptyString => 0
  | String c s' =>
      let n := nat_of_ascii c in
      (if Nat.leb 128 n && Nat.ltb n 192 then 0
       else if Nat.leb 240 n then 2 else 1) + js_length s'
  end.

(** [Joi.string().min(6).max(60).default("Unnamed Device")]: the handler
    sees the default when the client sent no name.  [min] and [max]
    compare [value.length]. *)
Definition Joi_device_name (o : option jsval) : bool :=
  match o with
  | Some (JStr s) => Nat.leb 6 (js_length s) && Nat.leb (js_length s) 60
  | _ => false
  end.

(** A key without presence requirement. *)
Definition optional (check : jsval -> bool) (o : option jsval) : bool :=
  match o with
  | Some v => check v
  | None => true
  end.

Definition viewer_payload (p : doc) : bool :=
  bool_decide (dom p ⊆ list_to_set ["ownerId"; "sessionId"])
  && optional Joi_string (p !! "ownerId")
  && optional Joi_objectId_value (p !! "sessionId").

Definition device_payload (p : doc) : bool :=
  bool_decide (dom p ⊆ list_to_set ["ownerId"; "name"; "description"; "sessions"])
  && optional Joi_string (p !! "ownerId")
  && Joi_device_name (p !! "name")
  && optional Joi_string (p !! "description")
  && optional Joi_array_of_objectId (p !! "sessions").

Definition payload_schema (s : service) : doc -> bool :=
  match s with
  | devices => device_payload
  | viewers => viewer_payload
  end.

(** [params: Joi.object({id: Joi.objectId()})] *)
Definition params_valid (request : request) : bool :=
  Joi_objectId (params_id request).

(** [query: Joi.object({ownerId: Joi.string(), sessionId: Joi.objectId(),
    skip: ..., limit: Joi.number().min(1).max(100)})] *)
Definition query_valid (q : Query.t) : bool :=
  optional Joi_string (JStr <$> Query.ownerId q)
  && optional Joi_objectId_value (JStr <$> Query.sessionId q)
  && Nat.leb 1 (Query.limit q) && Nat.leb (Query.limit q) 100.

(** What the validation of a route lets through, as far as the handler
    depends on it: the query on the list route, the [id] parameter on
    the item routes. *)
Definition validated (r : route) (request : request) : bool :=
  match r with
  | GET_collection => query_valid (query request)
  | POST_collection => true
  | GET_item | PUT_item | DELETE_item => params_valid request
  end.

(** ** States of the viewer service *)

(** The properties a viewer document is stored with. *)
Definition viewer_keys : gset string :=
  list_to_set [ "_id"; "createdDate"; "updatedDate"; "creatorId";
                "updatorId"; "ownerId"; "sessionId" ].

Definition has_ObjectID (d : doc) : bool :=
  match d !! "_id" with
  | Some (JObjectID _) => true
  | _ => false
  end.

(** The hex digits of a document's [_id]. *)
Definition hex_of (d : doc) : string :=
  match d !! "_id" with
  | Some (JObjectID h) => h
  | _ => ""
  end.

Definition viewer_document (d : doc) : Prop :=
  dom d = viewer_keys /\ has_ObjectID d = true.

Definition viewers_ok (l : list doc) : Prop :=
  Forall viewer_document l /\ NoDup (map hex_of l).

(** The viewer service at start-up: an empty database, the token still
    [''] and nothing sent. *)
Definition start : world := World ∅ (JStr "") [].

(** The worlds the viewer service runs into: it serves requests, and
    the event API plugin replaces the token from time to time. *)
Inductive reachable : world -> Prop :=
| reachable_start : reachable start
| reachable_request w r rt request :
    reachable w -> reachable (snd (handler viewers r rt request w))
| reachable_token w t :
    reachable w ->
    reachable (World (db w) (JStr t) (socket_emitted w)).

(** A document with the given [_id] is stored in the collection. *)
Definition stored (name : string) (id : string) (w : world) : bool :=
  match first_match (object [("_id", JObjectID (string_map lower_hex id))])
                    (collection name w) with
  | Some _ => true
  | None => false
  end.

(** The properties that an update of the service writes. *)
Definition written (s : service) : list string :=
  match s with
  | devices => [ "updatedDate"; "updatorId"; "ownerId"; "name";
                 "description"; "sessions" ]
  | viewers => [ "updatedDate"; "updatorId"; "ownerId"; "sessionId" ]
  end.

(** ** Concrete principals, requests and worlds used below *)

Module Sample.
Definition u1 : Credentials.t := Credentials.Build false (JStr "u1") [].
Definition m1 : Credentials.t := Credentials.Build true (JStr "m1") [].
Definition m2 : Credentials.t :=
  Credentials.Build true (JStr "m2") [JStr "impersonate_user"].

Definition no_query : Query.t := Query.Build 0 25 None None.
Definition rt : runtime := Runtime "507f1f77bcf86cd799439011" 1000 1000.
Definition later : runtime := Runtime "507f1f77bcf86cd799439099" 2000 2000.

Definition session_a : string := "507f1f77bcf86cd7994390aa".
Definition session_b : string := "507f1f77bcf86cd7994390bb".


(** [POST /viewers {sessionId}] by [u1], on the empty database. *)
Definition create_request : request :=
  Request (object [("sessionId", JStr session_a)]) "" no_query u1.
Definition after_create : world :=
  snd (Viewers.POST_viewers rt create_request start).

(** [PUT /viewers/507f...11 {sessionId}] by [u1]. *)
Definition update_request : request :=
  Request (object [("sessionId", JStr session_b)])
          "507f1f77bcf86cd799439011" no_query u1.

Definition item_request : request :=
  Request ∅ "507f1f77bcf86cd799439011" no_query u1.

(** A device as it would be stored, and a database that holds it. *)
Definition device : doc := object
  [ ("_id", JObjectID "507f1f77bcf86cd799439011");
    ("createdDate", JDate 1000);
    ("updatedDate", JDate 1000);
    ("creatorId", JStr "u1");
    ("updatorId", JStr "u1");
    ("ownerId", JStr "u1");
    ("name", JStr "Device-1");
    ("description", JStr "a device");
    ("sessions", JArr []) ].
Definition with_device : world :=
  World (<["devices" := [device]]> ∅) (JStr "") [].

Definition device_update_request : request :=
  Request (object [("name", JStr "Device-2")])
          "507f1f77bcf86cd799439011" no_query u1.

(** Thirty documents of owner [u1] in both collections. *)
Definition digit (n : nat) : string :=
  String (ascii_of_nat (48 + n)) EmptyString.
Definition numbered (n : nat) : doc := object
  [ ("_id", JObjectID ("507f1f77bcf86cd7994391" +:+ digit (n / 10)
                       +:+ digit (n mod 10)));
    ("ownerId", JStr "u1") ].
Definition thirty : world :=
  World (<["devices" := map numbered (seq 0 30)]>
         (<["viewers" := map numbered (seq 0 30)]> ∅)) (JStr "") [].

(** [POST /devices {name}] and [POST /devices {ownerId, name}] by [u1]. *)
Definition device_create_request : request :=
  Request (object [("name", JStr "Device-1")]) "" no_query u1.
Definition device_create_for_u2 : request :=
  Request (object [("ownerId", JStr "u2"); ("name", JStr "Device-1")])
          "" no_query u1.

(** [POST /viewers {ownerId: "u2"}] by the machine [m1], which holds no
    scope. *)
Definition machine_create_for_u2 : request :=
  Request (object [("ownerId", JStr "u2")]) "" no_query m1.

(** [POST /viewers {ownerId: "m1"}] by the machine [m1]. *)
Definition machine_create_for_itself : request :=
  Request (object [("ownerId", JStr "m1")]) "" no_query m1.

(** [PUT /viewers/507f...11 {ownerId: "m1"}] by the machine [m1]. *)
Definition machine_takes_over : request :=
  Request (object [("ownerId", JStr "m1")])
          "507f1f77bcf86cd799439011" no_query m1.

(** [POST /viewers {sessionId}] by the machine [m1], on the empty
    database: the viewer it creates is its own. *)
Definition machine_create_request : request :=
  Request (object [("sessionId", JStr session_a)]) "" no_query m1.
Definition after_machine_create : world :=
  snd (Viewers.POST_viewers rt machine_create_request start).
End Sample.

(** The [$set] document of [PUT /viewers/{id}], which is also the part
    of the response that overrides the stored viewer. *)
Definition viewer_set (rt : runtime) (request : request) (viewer : doc) : doc :=
  object
    [ ("updatedDate", JDate (now rt));
      ("updatorId", Credentials.user (credentials request));
      ("ownerId", if truthy (prop (payload request) "ownerId")
                  then prop (payload request) "ownerId"
                  else prop viewer "ownerId");
      ("sessionId", prop (payload request) "sessionId") ].

(** The document that [POST /viewers] inserts. *)
Definition new_viewer (rt : runtime) (request : request) : doc :=
  object
    [ ("_id", JObjectID (generated_id rt));
      ("createdDate", JDate (now rt));
      ("updatedDate", JDate (now' rt));
      ("creatorId", Credentials.user (credentials request));
      ("updatorId", Credentials.user (credentials request));
      ("ownerId", if truthy (prop (payload request) "ownerId")
                  then prop (payload request) "ownerId"
                  else Credentials.user (credentials request));
      ("sessionId", prop (payload request) "sessionId") ].

(** The query [{_id: new ObjectID(id)}] of the item routes. *)
Definition by_id (id : string) : doc :=
  object [("_id", JObjectID (string_map lower_hex id))].

(** ** The rest of the two services *)

(** [GET /health], the same in every service: no authentication, no
    access to the database. *)
Definition GET_health : M response :=
  h_response (Resource (object [("health", JStr "OK")])).

Module Auth.
(** What the [validate] function of the [auth0] strategy returns.  The
    credentials also keep the decoded token itself, which no handler
    reads; it is not carried in [Credentials.t]. *)
Record t : Type := Build
  { isValid : bool; credentials : Credentials.t }.

(** [validate] (server.js, lines 83-95 and 559-571; part_000, lines
    153-165): [token] is the decoded payload of the bearer token.
    [token.scopes || []] keeps a truthy [scopes] claim as it is; only an
    array fits [Credentials.scopes]. *)
Definition validate (token : doc) : completion t :=
  let isMachine := strict_eq (prop token "gty") (JStr "client-credentials") in
  scopes <~ (if truthy (prop token "scopes")
             then match prop token "scopes" with
                  | JArr l => Normal l
                  | _ => Unmodelled
                  end
             else Normal []) ;;
  Normal (Build true
            (Credentials.Build isMachine (prop token "sub") scopes)).
End Auth.

(** The earlier viewer service that [src/server.js] carries after the
    device service (lines 476-933): the same five routes on the
    collection [viewers], without the event API. *)
Module Legacy.

(** [GET /viewers] (server.js, lines 587-665). *)
Definition GET_viewers (request : request) : M response :=
  list_route "viewers" request.

(** [POST /viewers] (server.js, lines 667-746). *)
Definition POST_viewers (rt : runtime) (request : request) : M response :=
  let payload := payload request in
  let cred := credentials request in
  let id := JObjectID (generated_id rt) in
  let createdDate := JDate (now rt) in
  let updatedDate := JDate (now' rt) in
  let creatorId := Credentials.user cred in
  let ownerId :=
    if truthy (prop payload "ownerId") then prop payload "ownerId"
    else creatorId in
  denied <- lift (cannot_set_owner (prop payload "ownerId")
                    (Normal creatorId) cred) ;;
  if denied then
    h_response (Failure (Boom.unauthorized
      "You cannot create a viewer for another user without the impersonate_user scope."))
  else if machine_owns_itself (prop payload "ownerId") cred then
    h_response (Failure (Boom.badRequest
      "A machine cannot set themselves as the owner of this resource."))
  else
    let viewer := object
      [ ("_id", id);
        ("createdDate", createdDate);
        ("updatedDate", updatedDate);
        ("creatorId", Credentials.user cred);
        ("updatorId", Credentials.user cred);
        ("ownerId", ownerId);
        ("sessionId", prop payload "sessionId") ] in
    insertOne "viewers" viewer ;;;
    s <- lift (toString id) ;;
    let viewer := delete "_id" (<["id" := s]> viewer) in
    h_response (Resource viewer).

(** [GET /viewers/{id}] (server.js, lines 748-786). *)
Definition GET_viewers_id (request : request) : M response :=
  let id := params_id request in
  oid <- lift (ObjectID id) ;;
  let search := object [("_id", oid)] in
  viewer <- findOne "viewers" search ;;
  match viewer with
  | Some viewer =>
      viewer <- lift (id_from__id viewer) ;;
      h_response (Resource viewer)
  | None =>
      h_response (Failure (Boom.notFound ("Viewer with id " +:+ id +:+ " not found.")))
  end.

(** [PUT /viewers/{id}] (server.js, lines 788-879). *)
Definition PUT_viewers_id (rt : runtime) (request : request) : M response :=
  let payload := payload request in
  let cred := credentials request in
  let id := params_id request in
  oid <- lift (ObjectID id) ;;
  let search := object [("_id", oid)] in
  viewer <- findOne "viewers" search ;;
  match viewer with
  | Some viewer =>
      let updatedDate := JDate (now rt) in
      let updatorId := Credentials.user cred in
      let ownerId :=
        if truthy (prop payload "ownerId") then prop payload "ownerId"
        else prop viewer "ownerId" in
      denied <- lift (cannot_set_owner (prop payload "ownerId")
                        (Normal (prop viewer "ownerId")) cred) ;;
      if denied then
        h_response (Failure (Boom.unauthorized
          "You cannot change a viewer owner to another user without the impersonate_user scope."))
      else if machine_owns_itself (prop payload "ownerId") cred then
        h_response (Failure (Boom.badRequest
          "A machine cannot set themselves as the owner of this resource."))
      else
        updateOne "viewers" search (object
          [ ("updatedDate", updatedDate);
            ("updatorId", updatorId);
            ("ownerId", ownerId);
            ("sessionId", prop payload "sessionId") ]) ;;;
        h_response (Resource (object
          [ ("updatedDate", updatedDate);
            ("updatorId", updatorId);
            ("ownerId", ownerId);
            ("sessionId", prop payload "sessionId") ] ∪ viewer))
  | None =>
      h_response (Failure (Boom.notFound ("Viewer with id " +:+ id +:+ " not found.")))
  end.

(** [DELETE /viewers/{id}] (server.js, lines 881-923). *)
Definition DELETE_viewers_id (request : request) : M response :=
  let id := params_id request in
  oid <- lift (ObjectID id) ;;
  let search := object [("_id", oid)] in
  viewer <- findOne "viewers" search ;;
  match viewer with
  | Some viewer =>
      viewer <- lift (id_from__id viewer) ;;
      deleteOne "viewers" search ;;;
      h_response (Resource viewer)
  | None =>
      h_response (Failure (Boom.notFound ("Viewer with id " +:+ id +:+ " not found.")))
  end.

Definition handler (r : route) (rt : runtime) (request : request)
  : M response :=
  match r with
  | GET_collection => GET_viewers request
  | POST_collection => POST_viewers rt request
  | GET_item => GET_viewers_id request
  | PUT_item => PUT_viewers_id rt request
  | DELETE_item => DELETE_viewers_id request
  end.

End Legacy.

(** The name of the record that a viewer route emits when it accepts a
    request. *)
Definition event_name (r : route) : option string :=
  match r with
  | POST_collection => Some "viewer created"
  | PUT_item => Some "viewer updated"
  | DELETE_item => Some "viewer deleted"
  | GET_collection | GET_item => None
  end.

(** * Properties *)

(** ** Values, queries and the store *)

Ltac run :=
  cbv beta iota delta
    [bind lift ret findOne eventApi_token_read insertOne updateOne deleteOne
     find socket_emit list_route and_then h_response].

Lemma ObjectID_valid s :
  Joi_objectId s = true ->
  ObjectID s = Normal (JObjectID (string_map lower_hex s)).
Proof. intros H. unfold ObjectID. by rewrite H. Qed.

Lemma matches_id o d :
  matches (object [("_id", o)]) d = field_match o (d !! "_id").
Proof.
  unfold matches, object. simpl. rewrite insert_empty.
  destruct (field_match o (d !! "_id")) eqn:E.
  - apply bool_decide_eq_true_2. by apply map_Forall_singleton.
  - apply bool_decide_eq_false_2. rewrite map_Forall_singleton. congruence.
Qed.

Lemma matches_missing search k q d :
  search !! k = Some q -> field_match q (d !! k) = false ->
  matches search d = false.
Proof.
  intros Hk Hq. apply bool_decide_eq_false_2. intros Hall.
  specialize (Hall k q Hk). simpl in Hall. congruence.
Qed.

Lemma field_match_ObjectID h d :
  has_ObjectID d = true ->
  field_match (JObjectID h) (d !! "_id") = String.eqb (hex_of d) h.
Proof.
  unfold has_ObjectID, hex_of.
  destruct (d !! "_id") as [[]|]; try discriminate.
  intros _. simpl. by rewrite orb_false_r.
Qed.

Lemma has_id_ObjectID h d :
  has_ObjectID d = true -> has_id (JObjectID h) d = String.eqb (hex_of d) h.
Proof.
  unfold has_ObjectID, hex_of, has_id.
  by destruct (d !! "_id") as [[]|]; try discriminate.
Qed.

Lemma collection_set_eq name l w :
  collection name (set_collection name l w) = l.
Proof. unfold collection, set_collection. simpl. by rewrite lookup_insert_eq. Qed.

Lemma collection_insert name l m t e :
  collection name (World (<[name := l]> m) t e) = l.
Proof. unfold collection. simpl. by rewrite lookup_insert_eq. Qed.

Lemma collection_World name w t e :
  collection name (World (db w) t e) = collection name w.
Proof. done. Qed.

Lemma first_match_Some search l d :
  first_match search l = Some d -> d ∈ l /\ matches search d = true.
Proof.
  induction l as [|e l IH]; simpl; [done|].
  destruct (matches search e) eqn:E.
  - intros [= ->]. split; [left|done].
  - intros H. destruct (IH H). split; [by right|done].
Qed.

(** ** Well-formed viewer collections *)

Lemma viewers_ok_nil : viewers_ok [].
Proof. split; constructor. Qed.

Lemma viewers_ok_insert l d h :
  viewers_ok l -> viewer_document d -> d !! "_id" = Some (JObjectID h) ->
  existsb (has_id (JObjectID h)) l = false ->
  viewers_ok (l ++ [d]).
Proof.
  intros [Hall Hnd] Hd Hid Hfresh. split.
  - apply Forall_app. split; [done|]. by constructor.
  - rewrite map_app. simpl. apply NoDup_app. split; [done|]. split.
    + intros x Hx Hx'. apply list_elem_of_singleton in Hx'. subst x.
      apply list_elem_of_fmap in Hx as [d' [Heq Hin]].
      assert (has_id (JObjectID h) d' = true) as Hh.
      { rewrite has_id_ObjectID.
        - rewrite <- Heq. unfold hex_of. rewrite Hid. apply String.eqb_refl.
        - rewrite Forall_forall in Hall. by apply Hall. }
      assert (existsb (has_id (JObjectID h)) l = true) as Ht.
      { apply existsb_exists. exists d'. split; [|done]. by apply list_elem_of_In. }
      congruence.
    + apply NoDup_singleton.
Qed.

Section written_properties.
(** A [$set] that stays within the properties of a viewer and leaves
    [_id] alone. *)
Variable set : doc.
Hypothesis set_dom : dom set ⊆ viewer_keys.
Hypothesis set_id : set !! "_id" = None.

Lemma viewer_document_set d :
  viewer_document d ->
  viewer_document (set ∪ d) /\ hex_of (set ∪ d) = hex_of d.
Proof.
  intros [Hk Ho]. unfold viewer_document, has_ObjectID, hex_of.
  rewrite (lookup_union_r set d "_id" set_id). split; [split|]; try done.
  rewrite dom_union_L, Hk. by apply subseteq_union_1_L.
Qed.

Lemma update_first_hex s l :
  Forall viewer_document l ->
  map hex_of (update_first s set l) = map hex_of l.
Proof.
  induction 1 as [|d l Hd Hall IH]; [done|]. simpl.
  destruct (matches s d); simpl; f_equal; [|done].
  by apply viewer_document_set.
Qed.

Lemma update_first_ok s l :
  viewers_ok l -> viewers_ok (update_first s set l).
Proof.
  intros [Hall Hnd]. split.
  - clear Hnd. induction Hall as [|d l Hd Hall IH]; simpl; [constructor|].
    destruct (matches s d); constructor; try done.
    by apply viewer_document_set.
  - by rewrite update_first_hex.
Qed.

End written_properties.

Lemma delete_first_sublist s (l : list doc) : delete_first s l `sublist_of` l.
Proof.
  induction l as [|d l IH]; simpl; [constructor|].
  destruct (matches s d); by constructor.
Qed.

Lemma delete_first_ok s l : viewers_ok l -> viewers_ok (delete_first s l).
Proof.
  intros [Hall Hnd]. split.
  - rewrite Forall_forall in Hall |- *. intros d Hd. apply Hall.
    eapply elem_of_sublist; [done|]. apply delete_first_sublist.
  - apply (sublist_NoDup _ (map hex_of l)); [done|].
    apply (fmap_sublist hex_of). apply delete_first_sublist.
Qed.

(** ** What the driver stores *)

Lemma bson_bson v : bson (bson v) = bson v.
Proof.
  revert v. fix IH 1. intros [| | | | |items]; simpl; try reflexivity.
  f_equal. revert items. fix IHitems 1.
  intros [|x items]; simpl; [reflexivity|].
  f_equal; [apply IH|apply IHitems].
Qed.

Lemma serialize_lookup (d : doc) k : serialize d !! k = bson <$> d !! k.
Proof. apply lookup_fmap. Qed.

Lemma serialize_dom (d : doc) : dom (serialize d) = dom d.
Proof. apply dom_fmap_L. Qed.

Lemma serialize_serialize (d : doc) : serialize (serialize d) = serialize d.
Proof.
  apply map_eq. intros k. rewrite !serialize_lookup.
  destruct (d !! k); simpl; [|done]. by rewrite bson_bson.
Qed.

Lemma serialize_id (d : doc) h :
  d !! "_id" = Some (JObjectID h) -> serialize d !! "_id" = Some (JObjectID h).
Proof. intros H. by rewrite serialize_lookup, H. Qed.

Lemma serialize_no_id (d : doc) : d !! "_id" = None -> serialize d !! "_id" = None.
Proof. intros H. by rewrite serialize_lookup, H. Qed.

Lemma serialize_document d : viewer_document d -> viewer_document (serialize d).
Proof.
  intros [Hdom Hid]. split; [by rewrite serialize_dom|].
  unfold has_ObjectID in *. rewrite serialize_lookup.
  by destruct (d !! "_id") as [[]|].
Qed.


Lemma serialize_union (set d : doc) :
  serialize d = d -> serialize (set ∪ d) = serialize set ∪ d.
Proof. intros H. unfold serialize in *. by rewrite map_fmap_union, H. Qed.

Lemma serialized_lookup (d : doc) k v :
  serialize d = d -> d !! k = Some v -> bson v = v.
Proof.
  intros H Hk.
  assert (serialize d !! k = Some (bson v)) as Hb
    by (by rewrite serialize_lookup, Hk).
  rewrite H in Hb. congruence.
Qed.

(** ** The handlers, with the monad unfolded *)

Lemma new_viewer_id rt request :
  new_viewer rt request !! "_id" = Some (JObjectID (generated_id rt)).
Proof. reflexivity. Qed.

Lemma POST_viewers_eq rt request w :
  Viewers.POST_viewers rt request w =
  let created := delete "_id" (<["id" := JStr (generated_id rt)]>
                                 (new_viewer rt request)) in
  match cannot_set_owner (prop (payload request) "ownerId")
          (Normal (Credentials.user (credentials request)))
          (credentials request) with
  | Normal true =>
      (Throw cannot_wrap, w)
  | Normal false =>
      if machine_owns_itself (prop (payload request) "ownerId")
           (credentials request)
      then (Throw cannot_wrap, w)
      else if existsb (has_id (JObjectID (generated_id rt)))
                (collection "viewers" w)
      then (Throw (MongoError "E11000 duplicate key error collection"), w)
      else
        (Normal (Resource created),
         World (db (set_collection "viewers"
                      (collection "viewers" w ++ [serialize (new_viewer rt request)])
                      w))
               (eventApi_token w)
               (socket_emitted w ++
                [("viewer created",
                  Event.Build "viewer created" (eventApi_token w)
                    (prop created "id") created)]))
  | Throw e => (Throw e, w)
  | Unmodelled => (Unmodelled, w)
  end.
Proof.
  unfold Viewers.POST_viewers. run. fold (new_viewer rt request).
  rewrite new_viewer_id. cbv beta iota zeta.
  destruct (cannot_set_owner _ _ _) as [[|]| |]; try reflexivity.
  destruct (machine_owns_itself _ _); try reflexivity.
  destruct (existsb _ _); reflexivity.
Qed.

Lemma PUT_viewers_id_eq rt request w :
  Viewers.PUT_viewers_id rt request w =
  match ObjectID (params_id request) with
  | Normal o =>
      match first_match (object [("_id", o)]) (collection "viewers" w) with
      | Some d =>
          let updated := viewer_set rt request d ∪ d in
          match cannot_set_owner (prop (payload request) "ownerId")
                  (Normal (prop d "ownerId")) (credentials request) with
          | Normal true =>
              (Throw cannot_wrap, w)
          | Normal false =>
              if machine_owns_itself (prop (payload request) "ownerId")
                   (credentials request)
              then (Throw cannot_wrap, w)
              else
                (Normal (Resource updated),
                 World (db (set_collection "viewers"
                              (update_first (object [("_id", o)])
                                 (serialize (viewer_set rt request d))
                                 (collection "viewers" w)) w))
                       (eventApi_token w)
                       (socket_emitted w ++
                        [("viewer updated",
                          Event.Build "viewer updated" (eventApi_token w)
                            (prop updated "id") updated)]))
          | Throw e => (Throw e, w)
          | Unmodelled => (Unmodelled, w)
          end
      | None =>
          (Throw cannot_wrap, w)
      end
  | Throw e => (Throw e, w)
  | Unmodelled => (Unmodelled, w)
  end.
Proof.
  unfold Viewers.PUT_viewers_id. run.
  destruct (ObjectID _) as [o| |]; try reflexivity.
  destruct (first_match _ _) as [d|]; try reflexivity.
  destruct (cannot_set_owner _ _ _) as [[|]| |]; try reflexivity.
  destruct (machine_owns_itself _ _); reflexivity.
Qed.

Lemma DELETE_viewers_id_eq request w :
  Viewers.DELETE_viewers_id request w =
  match ObjectID (params_id request) with
  | Normal o =>
      match first_match (object [("_id", o)]) (collection "viewers" w) with
      | Some d =>
          match id_from__id d with
          | Normal deleted =>
              (Normal (Resource deleted),
               World (db (set_collection "viewers"
                            (delete_first (object [("_id", o)])
                               (collection "viewers" w)) w))
                     (eventApi_token w)
                     (socket_emitted w ++
                      [("viewer deleted",
                        Event.Build "viewer deleted" (eventApi_token w)
                          (prop deleted "id") deleted)]))
          | Throw e => (Throw e, w)
          | Unmodelled => (Unmodelled, w)
          end
      | None =>
          (Throw cannot_wrap, w)
      end
  | Throw e => (Throw e, w)
  | Unmodelled => (Unmodelled, w)
  end.
Proof.
  unfold Viewers.DELETE_viewers_id. run.
  destruct (ObjectID _) as [o| |]; try reflexivity.
  destruct (first_match _ _) as [d|]; [|reflexivity].
  unfold id_from__id, and_then.
  destruct (toString _) as [deleted| |]; reflexivity.
Qed.

Lemma GET_viewers_id_eq request w :
  Viewers.GET_viewers_id request w =
  match ObjectID (params_id request) with
  | Normal o =>
      match first_match (object [("_id", o)]) (collection "viewers" w) with
      | Some d =>
          match id_from__id d with
          | Normal found => (Normal (Resource found), w)
          | Throw e => (Throw e, w)
          | Unmodelled => (Unmodelled, w)
          end
      | None =>
          (Throw cannot_wrap, w)
      end
  | Throw e => (Throw e, w)
  | Unmodelled => (Unmodelled, w)
  end.
Proof.
  unfold Viewers.GET_viewers_id. run.
  destruct (ObjectID _) as [o| |]; try reflexivity.
  destruct (first_match _ _) as [d|]; [|reflexivity].
  unfold id_from__id, and_then.
  destruct (toString _) as [found| |]; reflexivity.
Qed.

Lemma list_route_eq name request w :
  list_route name request w =
  match list_search (query request) with
  | Normal search =>
      let cursor :=
        Cursor.limit (Query.limit (query request))
          (Cursor.skip (Query.skip (query request))
             (Cursor.Build (List.filter (matches search) (collection name w))
                           0 0)) in
      match for_each id_from__id (Cursor.toArray cursor) with
      | Normal results =>
          (Normal (Page (Metadata.Build (Cursor.count true cursor)
                           (Query.skip (query request))
                           (Query.limit (query request))
                           (Cursor.count false cursor))
                        results),
           w)
      | Throw e => (Throw e, w)
      | Unmodelled => (Unmodelled, w)
      end
  | Throw e => (Throw e, w)
  | Unmodelled => (Unmodelled, w)
  end.
Proof.
  unfold list_route. run.
  destruct (list_search _) as [search| |]; reflexivity.
Qed.

(** ** Every reachable viewer collection is well formed *)

Lemma new_viewer_document rt request : viewer_document (new_viewer rt request).
Proof. split; reflexivity. Qed.

Lemma viewer_set_dom rt request d : dom (viewer_set rt request d) ⊆ viewer_keys.
Proof. eapply bool_decide_eq_true_1. vm_compute. reflexivity. Qed.

Lemma viewer_set_id rt request d : viewer_set rt request d !! "_id" = None.
Proof. reflexivity. Qed.

Lemma handler_viewers_ok r rt request w :
  viewers_ok (collection "viewers" w) ->
  viewers_ok (collection "viewers" (snd (handler viewers r rt request w))).
Proof.
  intros Hok. destruct r; unfold handler.
  - unfold Viewers.GET_viewers. rewrite list_route_eq.
    destruct (list_search _); [|done..]. cbv zeta.
    by destruct (for_each _ _).
  - rewrite POST_viewers_eq. cbv zeta.
    destruct (cannot_set_owner _ _ _) as [[|]| |]; try done.
    destruct (machine_owns_itself _ _); [done|].
    destruct (existsb _ _) eqn:Hfresh; [done|].
    cbn [snd]. rewrite collection_World, collection_set_eq.
    eapply viewers_ok_insert;
      [done|apply serialize_document, new_viewer_document
      |apply serialize_id, new_viewer_id|done].
  - rewrite GET_viewers_id_eq.
    destruct (ObjectID _); [|done..].
    destruct (first_match _ _); [|done]. by destruct (id_from__id _).
  - rewrite PUT_viewers_id_eq.
    destruct (ObjectID _); [|done..].
    destruct (first_match _ _); [|done]. cbv zeta.
    destruct (cannot_set_owner _ _ _) as [[|]| |]; try done.
    destruct (machine_owns_itself _ _); [done|].
    cbn [snd]. rewrite collection_World, collection_set_eq.
    apply update_first_ok;
      [rewrite serialize_dom; apply viewer_set_dom
      |apply serialize_no_id, viewer_set_id|done].
  - rewrite DELETE_viewers_id_eq.
    destruct (ObjectID _); [|done..].
    destruct (first_match _ _); [|done].
    destruct (id_from__id _); [|done..].
    cbn [snd]. rewrite collection_World, collection_set_eq.
    by apply delete_first_ok.
Qed.

Lemma reachable_ok w : reachable w -> viewers_ok (collection "viewers" w).
Proof.
  induction 1 as [|w r rt request _ IH|w t _ IH].
  - apply viewers_ok_nil.
  - by apply handler_viewers_ok.
  - done.
Qed.

Lemma Forall_update_first (P : doc -> Prop) search set l :
  Forall P l ->
  (forall d, first_match search l = Some d -> P (set ∪ d)) ->
  Forall P (update_first search set l).
Proof.
  induction 1 as [|e l He Hl IH]; simpl; [constructor|].
  destruct (matches search e); intros Hset.
  - constructor; [by apply Hset|done].
  - constructor; [done|by apply IH].
Qed.

(** Every stored viewer is as the driver writes it: no property is
    [undefined]. *)
Lemma handler_serialized r rt request w :
  Forall (fun d : doc => serialize d = d) (collection "viewers" w) ->
  Forall (fun d : doc => serialize d = d)
         (collection "viewers" (snd (handler viewers r rt request w))).
Proof.
  intros Hall. destruct r; unfold handler.
  - unfold Viewers.GET_viewers. rewrite list_route_eq.
    destruct (list_search _); [|done..]. cbv zeta.
    by destruct (for_each _ _).
  - rewrite POST_viewers_eq. cbv zeta.
    destruct (cannot_set_owner _ _ _) as [[|]| |]; try done.
    destruct (machine_owns_itself _ _); [done|].
    destruct (existsb _ _); [done|].
    cbn [snd]. rewrite collection_World, collection_set_eq.
    apply Forall_app. split; [done|]. constructor; [|constructor].
    apply serialize_serialize.
  - rewrite GET_viewers_id_eq.
    destruct (ObjectID _); [|done..].
    destruct (first_match _ _); [|done]. by destruct (id_from__id _).
  - rewrite PUT_viewers_id_eq.
    destruct (ObjectID _); [|done..].
    destruct (first_match _ _) as [d|] eqn:Hd; [|done]. cbv zeta.
    destruct (cannot_set_owner _ _ _) as [[|]| |]; try done.
    destruct (machine_owns_itself _ _); [done|].
    cbn [snd]. rewrite collection_World, collection_set_eq.
    apply Forall_update_first; [done|]. intros d' Hd'.
    rewrite Hd in Hd'. injection Hd' as <-.
    apply first_match_Some in Hd as [Hin _].
    rewrite Forall_forall in Hall.
    by rewrite (serialize_union _ _ (Hall d Hin)), serialize_serialize.
  - rewrite DELETE_viewers_id_eq.
    destruct (ObjectID _); [|done..].
    destruct (first_match _ _); [|done].
    destruct (id_from__id _); [|done..].
    cbn [snd]. rewrite collection_World, collection_set_eq.
    rewrite Forall_forall in Hall |- *. intros e He. apply Hall.
    eapply elem_of_sublist; [done|]. apply delete_first_sublist.
Qed.

Lemma reachable_serialized w :
  reachable w ->
  Forall (fun d : doc => serialize d = d) (collection "viewers" w).
Proof.
  induction 1 as [|w r rt request _ IH|w t _ IH].
  - constructor.
  - by apply handler_serialized.
  - done.
Qed.

(** What [findOne] by [_id] returns from a well-formed collection. *)
Lemma first_match_viewer l o d :
  viewers_ok l -> first_match (object [("_id", o)]) l = Some d ->
  viewer_document d /\ d !! "_id" = Some o.
Proof.
  intros [Hall _] Hd. apply first_match_Some in Hd as [Hin Hm].
  rewrite Forall_forall in Hall. specialize (Hall d Hin). split; [done|].
  destruct Hall as [_ Hoid]. rewrite matches_id in Hm.
  unfold has_ObjectID in Hoid.
  destruct (d !! "_id") as [[]|]; try discriminate.
  simpl in Hm. rewrite orb_false_r in Hm. destruct o; try discriminate.
  apply String.eqb_eq in Hm. by subst.
Qed.

(** ** The device routes *)

Lemma ObjectID_Normal s o :
  ObjectID s = Normal o ->
  Joi_objectId s = true /\ o = JObjectID (string_map lower_hex s).
Proof.
  unfold ObjectID. destruct (Joi_objectId s); [by intros [= <-]|].
  by destruct (Nat.eqb _ _).
Qed.

Lemma stored_first_match name id w :
  Joi_objectId id = true -> stored name id w = true ->
  exists o d, ObjectID id = Normal o
              /\ first_match (object [("_id", o)]) (collection name w) = Some d.
Proof.
  unfold stored. intros Hid Hs.
  destruct (first_match _ _) as [d|] eqn:Hd; [|discriminate].
  exists (JObjectID (string_map lower_hex id)), d.
  split; [by apply ObjectID_valid|done].
Qed.

(** [creatorId] is not declared in any scope around the device handler. *)
Lemma creatorId_unbound :
  free_identifier Devices.POST_devices_scope "creatorId"
  = Throw (ReferenceError "creatorId is not defined").
Proof. reflexivity. Qed.

(** A [Set] has no [map]. *)
Lemma sessionSet_map :
  call_method "sessionSet" Set_prototype "map"
  = Throw (TypeError "sessionSet.map is not a function").
Proof. reflexivity. Qed.

(** An array has no [contains]. *)
Lemma scopes_contains :
  call_method "request.auth.credentials.scopes" Array_prototype "contains"
  = Throw (TypeError
      "request.auth.credentials.scopes.contains is not a function").
Proof. reflexivity. Qed.

(** [POST /devices] never gets past its reads of [creatorId]. *)
Lemma POST_devices_throws rt request w :
  Devices.POST_devices rt request w
  = (Throw (ReferenceError "creatorId is not defined"), w).
Proof.
  unfold Devices.POST_devices, cannot_set_owner. run.
  rewrite creatorId_unbound.
  by destruct (truthy (prop (payload request) "ownerId")).
Qed.

Lemma device_payload_sessions p :
  device_payload p = true ->
  exists l, new_Set (prop p "sessions") = Normal l.
Proof.
  unfold device_payload. intros H. apply andb_prop in H as [_ H].
  unfold prop. destruct (p !! "sessions") as [v|]; simpl in *; [|by eexists].
  destruct v; try discriminate. by eexists.
Qed.

Lemma PUT_devices_id_world rt request w :
  snd (Devices.PUT_devices_id rt request w) = w.
Proof.
  unfold Devices.PUT_devices_id. run. rewrite sessionSet_map.
  destruct (ObjectID _); [|done..].
  destruct (first_match _ _); [|done].
  by destruct (new_Set _).
Qed.

(** C5: an update of an existing device, with any valid payload and by
    any caller, throws the TypeError of [sessionSet.map] (a [Set] has no
    [map]) before [updateOne] is reached: the request never completes
    and the database, like the rest of the world, is as before. *)
Theorem device_update_throws rt request w :
  params_valid request = true ->
  device_payload (payload request) = true ->
  stored "devices" (params_id request) w = true ->
  Devices.PUT_devices_id rt request w
  = (Throw (TypeError "sessionSet.map is not a function"), w).
Proof.
  intros Hid Hp Hs.
  destruct (stored_first_match _ _ _ Hid Hs) as (o & d & Ho & Hd).
  destruct (device_payload_sessions _ Hp) as [l Hl].
  unfold Devices.PUT_devices_id. run.
  rewrite Ho, Hd, Hl. reflexivity.
Qed.

Lemma device_update_throws_witness :
  params_valid Sample.device_update_request = true
  /\ device_payload (payload Sample.device_update_request) = true
  /\ stored "devices" (params_id Sample.device_update_request)
            Sample.with_device = true
  /\ Devices.PUT_devices_id Sample.rt Sample.device_update_request
       Sample.with_device
     = (Throw (TypeError "sessionSet.map is not a function"),
        Sample.with_device).
Proof.
  assert (params_valid Sample.device_update_request = true) as H1
    by (vm_compute; reflexivity).
  assert (device_payload (payload Sample.device_update_request) = true) as H2
    by (vm_compute; reflexivity).
  assert (stored "devices" (params_id Sample.device_update_request)
            Sample.with_device = true) as H3
    by (vm_compute; reflexivity).
  split; [exact H1|]. split; [exact H2|]. split; [exact H3|].
  exact (device_update_throws Sample.rt Sample.device_update_request
           Sample.with_device H1 H2 H3).
Defined.

(** ** Updates *)

Lemma matches_id_set set k d :
  set !! "_id" = None ->
  matches (object [("_id", k)]) (set ∪ d) = matches (object [("_id", k)]) d.
Proof. intros Hid. by rewrite !matches_id, (lookup_union_r set d "_id" Hid). Qed.

Lemma first_match_update_first s k set l d :
  set !! "_id" = None ->
  first_match (object [("_id", k)]) l = Some d ->
  exists d', first_match (object [("_id", k)]) (update_first s set l) = Some d'
             /\ (d' = d \/ d' = set ∪ d).
Proof.
  intros Hid. induction l as [|e l IH]; simpl; [done|].
  destruct (matches s e) eqn:Hs; simpl.
  - rewrite (matches_id_set set k e Hid).
    destruct (matches (object [("_id", k)]) e).
    + intros [= <-]. eauto.
    + intros H. eauto.
  - destruct (matches (object [("_id", k)]) e).
    + intros [= <-]. eauto.
    + apply IH.
Qed.

Lemma viewer_set_unwritten rt request d key :
  key ∉ written viewers -> viewer_set rt request d !! key = None.
Proof. intros Hk. by apply not_elem_of_list_to_map_1. Qed.

(** C6: whatever an update request is and however it ends, a stored
    document is still stored under its [_id] afterwards, and every
    property outside those an update writes (updatedDate, updatorId,
    ownerId and the resource's own fields) has the value it had, among
    them [_id], [createdDate] and [creatorId].  This holds for the viewer
    and for the device route. *)
Theorem update_keeps_identity s rt request w k d :
  first_match (object [("_id", k)]) (collection (collection_of s) w) = Some d ->
  exists d',
    first_match (object [("_id", k)])
      (collection (collection_of s) (snd (handler s PUT_item rt request w)))
    = Some d'
    /\ (forall key, key ∉ written s -> d' !! key = d !! key)
    /\ d' !! "_id" = d !! "_id"
    /\ d' !! "createdDate" = d !! "createdDate"
    /\ d' !! "creatorId" = d !! "creatorId".
Proof.
  intros Hd.
  assert (exists d',
    first_match (object [("_id", k)])
      (collection (collection_of s) (snd (handler s PUT_item rt request w)))
    = Some d'
    /\ (forall key, key ∉ written s -> d' !! key = d !! key)) as (d' & H1 & H2).
  { destruct s; unfold handler, collection_of in *.
    - rewrite PUT_devices_id_world. eauto.
    - rewrite PUT_viewers_id_eq.
      destruct (ObjectID _); [|eauto..].
      destruct (first_match (object [("_id", a)]) _) as [v|]; [|eauto].
      cbv zeta.
      destruct (cannot_set_owner _ _ _) as [[|]| |]; eauto.
      destruct (machine_owns_itself _ _); [eauto|].
      cbn [snd]. rewrite collection_World, collection_set_eq.
      destruct (first_match_update_first (object [("_id", a)]) k
                  (serialize (viewer_set rt request v)) _ d
                  (serialize_no_id _ (viewer_set_id rt request v)) Hd)
        as (d' & Hd' & [->| ->]).
      + eauto.
      + exists (serialize (viewer_set rt request v) ∪ d). split; [done|].
        intros key Hkey. apply lookup_union_r.
        rewrite serialize_lookup. by rewrite viewer_set_unwritten. }
  exists d'. split; [done|]. split; [done|].
  repeat split; apply H2; destruct s;
    (eapply bool_decide_eq_true_1; vm_compute; reflexivity).
Qed.

Lemma update_keeps_identity_witness :
  first_match (object [("_id", JObjectID "507f1f77bcf86cd799439011")])
    (collection (collection_of viewers) Sample.after_create)
  = Some (new_viewer Sample.rt Sample.create_request)
  /\ exists d',
    first_match (object [("_id", JObjectID "507f1f77bcf86cd799439011")])
      (collection (collection_of viewers)
         (snd (handler viewers PUT_item Sample.later Sample.update_request
                 Sample.after_create)))
    = Some d'
    /\ (forall key, key ∉ written viewers ->
          d' !! key = new_viewer Sample.rt Sample.create_request !! key)
    /\ d' !! "_id" = new_viewer Sample.rt Sample.create_request !! "_id"
    /\ d' !! "createdDate"
       = new_viewer Sample.rt Sample.create_request !! "createdDate"
    /\ d' !! "creatorId"
       = new_viewer Sample.rt Sample.create_request !! "creatorId".
Proof.
  assert (first_match (object [("_id", JObjectID "507f1f77bcf86cd799439011")])
            (collection (collection_of viewers) Sample.after_create)
          = Some (new_viewer Sample.rt Sample.create_request)) as H
    by reflexivity.
  split; [exact H|].
  exact (update_keeps_identity viewers Sample.later Sample.update_request
           Sample.after_create (JObjectID "507f1f77bcf86cd799439011")
           (new_viewer Sample.rt Sample.create_request) H).
Defined.

(** ** Listing *)

Lemma Joi_objectId_truthy s : Joi_objectId s = true -> truthy (JStr s) = true.
Proof. by destruct s. Qed.

Lemma list_search_session q s :
  Query.sessionId q = Some s -> Joi_objectId s = true ->
  exists search,
    list_search q = Normal search
    /\ search !! "sessions" = Some (JObjectID (string_map lower_hex s)).
Proof.
  intros Hs Hv. unfold list_search. rewrite Hs, (Joi_objectId_truthy s Hv),
    (ObjectID_valid s Hv). simpl.
  eexists. split; [reflexivity|]. apply lookup_insert_eq.
Qed.

Lemma viewer_document_sessions d : viewer_document d -> d !! "sessions" = None.
Proof.
  intros [Hdom _]. apply not_elem_of_dom. rewrite Hdom.
  eapply bool_decide_eq_true_1. vm_compute. reflexivity.
Qed.

Lemma viewer_document_id d : viewer_document d -> d !! "id" = None.
Proof.
  intros [Hdom _]. apply not_elem_of_dom. rewrite Hdom.
  eapply bool_decide_eq_true_1. vm_compute. reflexivity.
Qed.

Lemma filter_sessions search h l :
  search !! "sessions" = Some (JObjectID h) -> Forall viewer_document l ->
  List.filter (matches search) l = [].
Proof.
  intros Hs. induction 1 as [|d l Hd _ IH]; [done|]. simpl.
  rewrite (matches_missing search "sessions" (JObjectID h) d Hs); [done|].
  by rewrite (viewer_document_sessions d Hd).
Qed.

Lemma window_nil skip limit : Cursor.window (Cursor.Build [] skip limit) = [].
Proof.
  unfold Cursor.window. simpl. rewrite drop_nil.
  destruct (Nat.eqb limit 0); [done|apply take_nil].
Qed.

(** C8: [GET /viewers] with a [sessionId] filter queries the property
    [sessions], which no document written by the viewer routes has (they
    store [sessionId]); in every state the service can be in, the result
    is the empty page, whichever viewers refer to that session. *)
Theorem session_filter_matches_nothing w request s :
  reachable w ->
  Query.sessionId (query request) = Some s ->
  Joi_objectId s = true ->
  Viewers.GET_viewers request w
  = (Normal (Page (Metadata.Build 0 (Query.skip (query request))
                     (Query.limit (query request)) 0) []),
     w).
Proof.
  intros Hw Hs Hv. unfold Viewers.GET_viewers. rewrite list_route_eq.
  destruct (list_search_session _ _ Hs Hv) as (search & -> & Hsearch).
  destruct (reachable_ok w Hw) as [Hall _].
  cbv zeta. rewrite (filter_sessions search _ _ Hsearch Hall).
  unfold Cursor.toArray, Cursor.count, Cursor.skip, Cursor.limit.
  cbn [Cursor.matched Cursor.cursorSkip Cursor.cursorLimit].
  rewrite window_nil. reflexivity.
Qed.

Lemma session_filter_matches_nothing_witness :
  reachable Sample.after_create
  /\ Query.sessionId
       (query (Request ∅ "" (Query.Build 0 25 None (Some Sample.session_a))
                 Sample.u1))
     = Some Sample.session_a
  /\ Joi_objectId Sample.session_a = true
  /\ prop (new_viewer Sample.rt Sample.create_request) "sessionId"
     = JStr Sample.session_a
  /\ Viewers.GET_viewers
       (Request ∅ "" (Query.Build 0 25 None (Some Sample.session_a)) Sample.u1)
       Sample.after_create
     = (Normal (Page (Metadata.Build 0 0 25 0) []), Sample.after_create).
Proof.
  assert (reachable Sample.after_create) as H1
    by exact (reachable_request start POST_collection Sample.rt
                Sample.create_request reachable_start).
  assert (Joi_objectId Sample.session_a = true) as H2
    by (vm_compute; reflexivity).
  split; [exact H1|]. split; [reflexivity|]. split; [exact H2|].
  split; [reflexivity|].
  exact (session_filter_matches_nothing Sample.after_create
           (Request ∅ "" (Query.Build 0 25 None (Some Sample.session_a))
              Sample.u1)
           Sample.session_a H1 eq_refl H2).
Defined.

Lemma for_each_ids l :
  forallb has_ObjectID l = true ->
  exists results,
    for_each id_from__id l = Normal results /\ length results = length l.
Proof.
  induction l as [|d l IH]; simpl; [by eexists|].
  intros [Hd Hl]%andb_prop. destruct (IH Hl) as (r & -> & Hr).
  unfold id_from__id, has_ObjectID, prop in *.
  destruct (d !! "_id") as [[]|]; try discriminate.
  simpl. eexists. split; [reflexivity|]. simpl. by rewrite Hr.
Qed.

Lemma forallb_filter (p f : doc -> bool) l :
  forallb p l = true -> forallb p (List.filter f l) = true.
Proof.
  induction l as [|d l IH]; simpl; [done|].
  intros [Hd Hl]%andb_prop. destruct (f d); simpl; [|by apply IH].
  by rewrite Hd, IH.
Qed.

Lemma forallb_drop (p : doc -> bool) n l :
  forallb p l = true -> forallb p (drop n l) = true.
Proof.
  revert l. induction n as [|n IH]; intros [|d l]; simpl; try done.
  intros [_ Hl]%andb_prop. by apply IH.
Qed.

Lemma forallb_take (p : doc -> bool) n l :
  forallb p l = true -> forallb p (take n l) = true.
Proof.
  revert l. induction n as [|n IH]; intros [|d l]; simpl; try done.
  intros [Hd Hl]%andb_prop. by rewrite Hd, IH.
Qed.

Lemma forallb_window (p : doc -> bool) c :
  forallb p (Cursor.matched c) = true -> forallb p (Cursor.window c) = true.
Proof.
  intros H. unfold Cursor.window.
  destruct (Nat.eqb _ _);
    [by apply forallb_drop|by apply forallb_take, forallb_drop].
Qed.

(** A page of a list route: [count] is the size of the window that
    [skip] and [limit] cut out of the matching documents, [total] the
    number of matching documents. *)
Lemma list_route_page name request w search :
  list_search (query request) = Normal search ->
  forallb has_ObjectID (collection name w) = true ->
  let cursor :=
    Cursor.Build (List.filter (matches search) (collection name w))
      (Query.skip (query request)) (Query.limit (query request)) in
  exists results,
    list_route name request w
    = (Normal (Page (Metadata.Build (length (Cursor.window cursor))
                       (Query.skip (query request))
                       (Query.limit (query request))
                       (length (Cursor.matched cursor)))
                    results),
       w)
    /\ length results = length (Cursor.window cursor).
Proof.
  intros Hs Hall cursor. rewrite list_route_eq, Hs. cbv zeta.
  destruct (for_each_ids (Cursor.window cursor)) as (r & Hr & Hlen).
  { apply forallb_window. by apply forallb_filter. }
  exists r. split; [|done].
  unfold Cursor.toArray, Cursor.limit, Cursor.skip.
  cbn [Cursor.matched Cursor.cursorSkip Cursor.cursorLimit].
  fold cursor. by rewrite Hr.
Qed.

(** C9: when thirty documents match, [limit=25, skip=0] gives a page of
    25 results with [count = 25] and [total = 30], and [limit=25,
    skip=25] gives the remaining 5 (with [count = 5], [total = 30]), on
    the device and on the viewer collection. *)
Theorem list_pagination s rt payload id owner session cred w search :
  list_search (Query.Build 0 25 owner session) = Normal search ->
  forallb has_ObjectID (collection (collection_of s) w) = true ->
  length (List.filter (matches search) (collection (collection_of s) w)) = 30 ->
  (exists results,
     handler s GET_collection rt
       (Request payload id (Query.Build 0 25 owner session) cred) w
     = (Normal (Page (Metadata.Build 25 0 25 30) results), w)
     /\ length results = 25)
  /\ (exists results,
     handler s GET_collection rt
       (Request payload id (Query.Build 25 25 owner session) cred) w
     = (Normal (Page (Metadata.Build 5 25 25 30) results), w)
     /\ length results = 5).
Proof.
  intros Hs Hall Hlen.
  assert (forall skip, exists results,
    list_route (collection_of s)
      (Request payload id (Query.Build skip 25 owner session) cred) w
    = (Normal (Page (Metadata.Build (min 25 (30 - skip)) skip 25 30) results),
       w)
    /\ length results = min 25 (30 - skip)) as Hpage.
  { intros skip.
    destruct (list_route_page (collection_of s)
                (Request payload id (Query.Build skip 25 owner session) cred)
                w search Hs Hall) as (r & Hr & Hl).
    revert Hr Hl. unfold Cursor.window.
    cbn [query Query.skip Query.limit Cursor.matched Cursor.cursorSkip
         Cursor.cursorLimit Nat.eqb].
    rewrite length_take, length_drop, Hlen. eauto. }
  split.
  - destruct (Hpage 0) as (r & Hr & Hl). exists r.
    by destruct s.
  - destruct (Hpage 25) as (r & Hr & Hl). exists r.
    by destruct s.
Qed.

Lemma list_pagination_witness :
  list_search (Query.Build 0 25 (Some "u1") None)
  = Normal (<["ownerId" := JStr "u1"]> ∅)
  /\ forallb has_ObjectID (collection (collection_of devices) Sample.thirty)
     = true
  /\ length (List.filter (matches (<["ownerId" := JStr "u1"]> ∅))
               (collection (collection_of devices) Sample.thirty)) = 30
  /\ (exists results,
        handler devices GET_collection Sample.rt
          (Request ∅ "" (Query.Build 0 25 (Some "u1") None) Sample.u1)
          Sample.thirty
        = (Normal (Page (Metadata.Build 25 0 25 30) results), Sample.thirty)
        /\ length results = 25)
  /\ (exists results,
        handler devices GET_collection Sample.rt
          (Request ∅ "" (Query.Build 25 25 (Some "u1") None) Sample.u1)
          Sample.thirty
        = (Normal (Page (Metadata.Build 5 25 25 30) results), Sample.thirty)
        /\ length results = 5).
Proof.
  assert (list_search (Query.Build 0 25 (Some "u1") None)
          = Normal (<["ownerId" := JStr "u1"]> ∅)) as H1 by reflexivity.
  assert (forallb has_ObjectID
            (collection (collection_of devices) Sample.thirty) = true) as H2
    by (vm_compute; reflexivity).
  assert (length (List.filter (matches (<["ownerId" := JStr "u1"]> ∅))
                    (collection (collection_of devices) Sample.thirty)) = 30)
    as H3 by (vm_compute; reflexivity).
  split; [exact H1|]. split; [exact H2|]. split; [exact H3|].
  exact (list_pagination devices Sample.rt ∅ "" (Some "u1") None Sample.u1
           Sample.thirty (<["ownerId" := JStr "u1"]> ∅) H1 H2 H3).
Defined.

(** ** The [id] and [_id] of a response, and the events *)

Lemma id_from__id_ObjectID d h :
  d !! "_id" = Some (JObjectID h) ->
  id_from__id d = Normal (delete "_id" (<["id" := JStr h]> d)).
Proof. intros H. unfold id_from__id, prop. by rewrite H. Qed.

Lemma id_from__id_keys (d : doc) h :
  let exposed : doc := delete "_id" (<["id" := JStr h]> d) in
  exposed !! "_id" = None /\ exposed !! "id" = Some (JStr h).
Proof.
  split; [apply lookup_delete_eq|].
  rewrite lookup_delete_ne by done. apply lookup_insert_eq.
Qed.

(** What an accepted [PUT /viewers/{id}] answers and emits, in a
    reachable world: the stored viewer overridden by the written
    properties, still under [_id] and without [id], and one
    ['viewer updated'] record whose [viewerId] reads that missing [id]. *)
Lemma PUT_viewers_id_accepted w rt request body w' :
  reachable w ->
  Viewers.PUT_viewers_id rt request w = (Normal (Resource body), w') ->
  body !! "_id" = Some (JObjectID (string_map lower_hex (params_id request)))
  /\ body !! "id" = None
  /\ socket_emitted w'
     = socket_emitted w ++
       [("viewer updated",
         Event.Build "viewer updated" (eventApi_token w) JUndefined body)].
Proof.
  intros Hw. rewrite PUT_viewers_id_eq.
  destruct (ObjectID _) as [o| |] eqn:Ho; [|done..].
  apply ObjectID_Normal in Ho as [_ ->].
  destruct (first_match _ _) as [d|] eqn:Hd; [|done].
  destruct (first_match_viewer _ _ _ (reachable_ok w Hw) Hd) as [Hdoc Hid].
  cbv zeta. destruct (cannot_set_owner _ _ _) as [[|]| |]; try done.
  destruct (machine_owns_itself _ _); [done|].
  intros [= <- <-]. cbn [socket_emitted].
  assert ((viewer_set rt request d ∪ d) !! "id" = None) as Hnoid.
  { rewrite lookup_union_r by reflexivity. by apply viewer_document_id. }
  split; [|split; [done|]].
  - rewrite lookup_union_r by reflexivity. done.
  - unfold prop. by rewrite Hnoid.
Qed.

(** C10: in every reachable world the body of an accepted viewer update
    still has the store's [_id] and has no [id], whereas the bodies that
    the create, read and delete routes answer have [id], the id as a
    string, and no [_id].  (The list route answers a page, never a
    single resource.) *)
Theorem update_response_keeps__id w r rt request body w' :
  reachable w ->
  handler viewers r rt request w = (Normal (Resource body), w') ->
  match r with
  | PUT_item =>
      body !! "_id"
      = Some (JObjectID (string_map lower_hex (params_id request)))
      /\ body !! "id" = None
  | POST_collection =>
      body !! "_id" = None /\ body !! "id" = Some (JStr (generated_id rt))
  | GET_item | DELETE_item =>
      body !! "_id" = None
      /\ body !! "id" = Some (JStr (string_map lower_hex (params_id request)))
  | GET_collection => False
  end.
Proof.
  intros Hw. destruct r; unfold handler.
  - unfold Viewers.GET_viewers. rewrite list_route_eq.
    destruct (list_search _); [|done..]. cbv zeta.
    by destruct (for_each _ _).
  - rewrite POST_viewers_eq. cbv zeta.
    destruct (cannot_set_owner _ _ _) as [[|]| |]; try done.
    destruct (machine_owns_itself _ _); [done|].
    destruct (existsb _ _); [done|].
    intros [= <- _]. apply id_from__id_keys.
  - rewrite GET_viewers_id_eq.
    destruct (ObjectID _) as [o| |] eqn:Ho; [|done..].
    apply ObjectID_Normal in Ho as [_ ->].
    destruct (first_match _ _) as [d|] eqn:Hd; [|done].
    destruct (first_match_viewer _ _ _ (reachable_ok w Hw) Hd) as [_ Hid].
    rewrite (id_from__id_ObjectID d _ Hid).
    intros [= <- _]. apply id_from__id_keys.
  - intros H. destruct (PUT_viewers_id_accepted w rt request body w' Hw H)
      as (H1 & H2 & _). by split.
  - rewrite DELETE_viewers_id_eq.
    destruct (ObjectID _) as [o| |] eqn:Ho; [|done..].
    apply ObjectID_Normal in Ho as [_ ->].
    destruct (first_match _ _) as [d|] eqn:Hd; [|done].
    destruct (first_match_viewer _ _ _ (reachable_ok w Hw) Hd) as [_ Hid].
    rewrite (id_from__id_ObjectID d _ Hid).
    intros [= <- _]. apply id_from__id_keys.
Qed.

Lemma update_response_keeps__id_witness :
  reachable Sample.after_create
  /\ handler viewers PUT_item Sample.later Sample.update_request
       Sample.after_create
     = (Normal (Resource
          (viewer_set Sample.later Sample.update_request
             (new_viewer Sample.rt Sample.create_request)
           ∪ new_viewer Sample.rt Sample.create_request)),
        snd (handler viewers PUT_item Sample.later Sample.update_request
               Sample.after_create))
  /\ (viewer_set Sample.later Sample.update_request
        (new_viewer Sample.rt Sample.create_request)
      ∪ new_viewer Sample.rt Sample.create_request) !! "_id"
     = Some (JObjectID
               (string_map lower_hex (params_id Sample.update_request)))
  /\ (viewer_set Sample.later Sample.update_request
        (new_viewer Sample.rt Sample.create_request)
      ∪ new_viewer Sample.rt Sample.create_request) !! "id" = None.
Proof.
  assert (reachable Sample.after_create) as H1
    by exact (reachable_request start POST_collection Sample.rt
                Sample.create_request reachable_start).
  assert (handler viewers PUT_item Sample.later Sample.update_request
            Sample.after_create
          = (Normal (Resource
               (viewer_set Sample.later Sample.update_request
                  (new_viewer Sample.rt Sample.create_request)
                ∪ new_viewer Sample.rt Sample.create_request)),
             snd (handler viewers PUT_item Sample.later Sample.update_request
                    Sample.after_create))) as H2 by reflexivity.
  split; [exact H1|]. split; [exact H2|].
  exact (update_response_keeps__id Sample.after_create PUT_item Sample.later
           Sample.update_request _ _ H1 H2).
Defined.

(** C7, checked on a run: [u1] creates a viewer and then updates its
    session.  The update is accepted and emits exactly one
    ['viewer updated'] record with the token and the updated resource,
    but its [viewerId] is [undefined], not the id of the viewer: the
    record reads [updatedViewer.id], and the updated viewer carries its
    id under [_id]. *)
Theorem viewer_updated_event_without_viewerId :
  exists body w',
    Viewers.PUT_viewers_id Sample.later Sample.update_request
      Sample.after_create
    = (Normal (Resource body), w')
    /\ body !! "_id" = Some (JObjectID "507f1f77bcf86cd799439011")
    /\ socket_emitted w'
       = socket_emitted Sample.after_create ++
         [("viewer updated",
           Event.Build "viewer updated" (JStr "") JUndefined body)]
    /\ Event.viewerId (Event.Build "viewer updated" (JStr "") JUndefined body)
       <> JStr "507f1f77bcf86cd799439011".
Proof.
  exists (viewer_set Sample.later Sample.update_request
            (new_viewer Sample.rt Sample.create_request)
          ∪ new_viewer Sample.rt Sample.create_request),
         (snd (Viewers.PUT_viewers_id Sample.later Sample.update_request
                 Sample.after_create)).
  split; [reflexivity|].
  split; [reflexivity|]. split; [reflexivity|]. discriminate.
Qed.

(** ** Creation *)

(** A valid create request without [ownerId] on the viewer route: the
    viewer is stored and answered with the caller as owner and creator
    (the generated id being new in the collection). *)
Lemma viewer_create_default_owner rt request w :
  payload request !! "ownerId" = None ->
  existsb (has_id (JObjectID (generated_id rt))) (collection "viewers" w)
  = false ->
  exists body w',
    Viewers.POST_viewers rt request w = (Normal (Resource body), w')
    /\ body !! "ownerId" = Some (Credentials.user (credentials request))
    /\ body !! "creatorId" = Some (Credentials.user (credentials request))
    /\ collection "viewers" w'
       = collection "viewers" w ++ [serialize (new_viewer rt request)]
    /\ new_viewer rt request !! "ownerId"
       = Some (Credentials.user (credentials request)).
Proof.
  intros Hnone Hfresh. rewrite POST_viewers_eq, Hfresh.
  assert (prop (payload request) "ownerId" = JUndefined) as Hp
    by (unfold prop; by rewrite Hnone).
  assert (new_viewer rt request !! "ownerId"
          = Some (Credentials.user (credentials request))) as Hown.
  { unfold new_viewer. rewrite Hp. reflexivity. }
  unfold cannot_set_owner, machine_owns_itself. rewrite Hp.
  cbn [truthy andb]. cbv zeta. eexists _, _. split; [reflexivity|].
  rewrite !lookup_delete_ne, !lookup_insert_ne by done.
  split; [done|]. split; [reflexivity|]. split; [|done].
  by rewrite collection_World, collection_set_eq.
Qed.

(** C3, checked on a run: [u1] posts the valid device payload
    [{name: "Device-1"}], without [ownerId].  The device route does not
    succeed: it throws the ReferenceError of [creatorId], which the
    device handler never declares (the viewer handler does), and nothing
    is stored. *)
Theorem device_create_without_owner_throws :
  payload_schema devices (payload Sample.device_create_request) = true
  /\ payload Sample.device_create_request !! "ownerId" = None
  /\ handler devices POST_collection Sample.rt Sample.device_create_request
       start
     = (Throw (ReferenceError "creatorId is not defined"), start).
Proof.
  split; [by vm_compute|]. split; [reflexivity|].
  apply POST_devices_throws.
Qed.

(** ** Deletion *)

Lemma first_match_None search (l : list doc) :
  (forall d, d ∈ l -> matches search d = false) -> first_match search l = None.
Proof.
  induction l as [|d l IH]; [done|]. intros H. simpl.
  rewrite (H d) by left. apply IH. intros e He. apply H. by right.
Qed.

Lemma first_match_delete_first l h :
  viewers_ok l ->
  first_match (object [("_id", JObjectID h)])
    (delete_first (object [("_id", JObjectID h)]) l) = None.
Proof.
  intros [Hall Hnd]. induction l as [|d l IH]; [done|]. simpl.
  inversion Hall as [|? ? Hd Hall']; subst.
  inversion Hnd as [|? ? Hnot Hnd']; subst.
  destruct (matches _ d) eqn:Hm.
  - apply first_match_None. intros e He.
    rewrite Forall_forall in Hall'. destruct (Hall' e He) as [_ Hoid].
    rewrite matches_id, field_match_ObjectID in Hm |- * by (done || apply Hd).
    apply String.eqb_eq in Hm. apply String.eqb_neq. intros Heq.
    apply Hnot. rewrite Hm, <- Heq. by apply list_elem_of_fmap_2.
  - simpl. rewrite Hm. by apply IH.
Qed.

(** A delete of a stored viewer, in a reachable world: the answer is the
    document read before the deletion (with [id] for [_id]), one
    ['viewer deleted'] record goes out, and a read of the same id
    afterwards finds nothing: it goes to its NotFound branch, which ends
    in the exception of [h.response]. *)
Lemma viewer_delete_removes w request body w' :
  reachable w ->
  Viewers.DELETE_viewers_id request w = (Normal (Resource body), w') ->
  (exists d,
     first_match (by_id (params_id request)) (collection "viewers" w) = Some d
     /\ id_from__id d = Normal body)
  /\ socket_emitted w'
     = socket_emitted w ++
       [("viewer deleted",
         Event.Build "viewer deleted" (eventApi_token w) (prop body "id") body)]
  /\ stored "viewers" (params_id request) w' = false
  /\ Viewers.GET_viewers_id request w' = (Throw cannot_wrap, w').
Proof.
  intros Hw. rewrite DELETE_viewers_id_eq, GET_viewers_id_eq.
  destruct (ObjectID _) as [o| |] eqn:Ho; [|done..].
  apply ObjectID_Normal in Ho as [_ ->]. fold (by_id (params_id request)).
  destruct (first_match _ (collection "viewers" w)) as [d|] eqn:Hd; [|done].
  destruct (id_from__id d) as [deleted| |] eqn:Hdel; [|done..].
  intros [= <- <-]. split; [by exists d|]. split; [done|].
  unfold stored. rewrite collection_insert.
  unfold by_id. by rewrite first_match_delete_first by apply reachable_ok, Hw.
Qed.

(** C4, checked on a run: a database holds one device, and its id is
    deleted.  The route answers the device, but it calls no [deleteOne]
    (the viewer route does): the world is as before, the device is still
    stored, and a read of the same id answers it again instead of
    NotFound. *)
Theorem device_delete_keeps_document :
  stored "devices" (params_id Sample.item_request) Sample.with_device = true
  /\ handler devices DELETE_item Sample.rt Sample.item_request
       Sample.with_device
     = (Normal (Resource
          (delete "_id" (<["id" := JStr "507f1f77bcf86cd799439011"]>
                           Sample.device))),
        Sample.with_device)
  /\ handler devices GET_item Sample.rt Sample.item_request
       (snd (handler devices DELETE_item Sample.rt Sample.item_request
               Sample.with_device))
     = (Normal (Resource
          (delete "_id" (<["id" := JStr "507f1f77bcf86cd799439011"]>
                           Sample.device))),
        Sample.with_device).
Proof.
  split; [by vm_compute|]. split; reflexivity.
Qed.

(** ** The ownership guards *)

Lemma truthy_JStr s : s <> "" -> truthy (JStr s) = true.
Proof. intros H. simpl. by apply negb_true_iff, String.eqb_neq. Qed.

(** For a human caller (not a machine) who names another owner the
    first guard holds, whatever scopes the token carries: [!isMachine]
    decides before [scopes.contains] is evaluated. *)
Lemma cannot_set_owner_human s baseline c :
  Credentials.isMachine c = false -> s <> "" ->
  strict_eq (JStr s) baseline = false ->
  cannot_set_owner (JStr s) (Normal baseline) c = Normal true.
Proof.
  intros Hm Hs Hne. unfold cannot_set_owner.
  rewrite (truthy_JStr s Hs). cbn [and_then]. by rewrite Hne, Hm.
Qed.

(** A machine that names another owner reaches [scopes.contains], and
    the call throws. *)
Lemma cannot_set_owner_machine s baseline c :
  Credentials.isMachine c = true -> s <> "" ->
  strict_eq (JStr s) baseline = false ->
  cannot_set_owner (JStr s) (Normal baseline) c
  = Throw (TypeError
      "request.auth.credentials.scopes.contains is not a function").
Proof.
  intros Hm Hs Hne. unfold cannot_set_owner.
  rewrite (truthy_JStr s Hs). cbn [and_then]. by rewrite Hne, Hm.
Qed.

(** The requested owner is the baseline owner: the first guard passes
    without looking at the scopes. *)
Lemma cannot_set_owner_same s c :
  cannot_set_owner (JStr s) (Normal (JStr s)) c = Normal false.
Proof.
  unfold cannot_set_owner. destruct (truthy (JStr s)); [|done].
  cbn [and_then strict_eq]. by rewrite String.eqb_refl.
Qed.

(** The viewer routes then go to their Unauthorized branch, which ends
    in the exception of [h.response]. *)
Lemma viewer_owner_change_by_human_create rt request w s :
  Credentials.isMachine (credentials request) = false ->
  prop (payload request) "ownerId" = JStr s -> s <> "" ->
  strict_eq (JStr s) (Credentials.user (credentials request)) = false ->
  Viewers.POST_viewers rt request w = (Throw cannot_wrap, w).
Proof.
  intros Hm Hp Hs Hne. rewrite POST_viewers_eq, Hp.
  by rewrite (cannot_set_owner_human s _ _ Hm Hs Hne).
Qed.

Lemma viewer_owner_change_by_human_update rt request w s d :
  Credentials.isMachine (credentials request) = false ->
  prop (payload request) "ownerId" = JStr s -> s <> "" ->
  params_valid request = true ->
  first_match (by_id (params_id request)) (collection "viewers" w) = Some d ->
  strict_eq (JStr s) (prop d "ownerId") = false ->
  Viewers.PUT_viewers_id rt request w = (Throw cannot_wrap, w).
Proof.
  intros Hm Hp Hs Hid Hd Hne.
  rewrite PUT_viewers_id_eq, (ObjectID_valid _ Hid).
  fold (by_id (params_id request)). rewrite Hd, Hp. cbv zeta.
  by rewrite (cannot_set_owner_human s _ _ Hm Hs Hne).
Qed.

(** C1, checked on runs.  [u1], a human without scopes, posts a device
    for [u2]: the route throws the ReferenceError of the undeclared
    [creatorId] instead of answering Unauthorized.  The machine [m1],
    without scopes, posts a viewer for [u2], or gives [u1]'s viewer to
    [u2]: the guard calls [scopes.contains], which an array does not
    have, and throws a TypeError.  [u1] gives a stored device to [u2]:
    the route throws at [sessionSet.map] before the guard.  None of them
    writes to the database. *)
Theorem owner_change_without_scope_throws :
  payload_schema devices (payload Sample.device_create_for_u2) = true
  /\ prop (payload Sample.device_create_for_u2) "ownerId" = JStr "u2"
  /\ Credentials.user (credentials Sample.device_create_for_u2) = JStr "u1"
  /\ Credentials.scopes (credentials Sample.device_create_for_u2) = []
  /\ handler devices POST_collection Sample.rt Sample.device_create_for_u2
       start
     = (Throw (ReferenceError "creatorId is not defined"), start)
  /\ handler viewers POST_collection Sample.rt Sample.machine_create_for_u2
       start
     = (Throw (TypeError
          "request.auth.credentials.scopes.contains is not a function"),
        start)
  /\ handler viewers PUT_item Sample.later
       (Request (object [("ownerId", JStr "u2")]) "507f1f77bcf86cd799439011"
          Sample.no_query Sample.m1)
       Sample.after_create
     = (Throw (TypeError
          "request.auth.credentials.scopes.contains is not a function"),
        Sample.after_create)
  /\ handler devices PUT_item Sample.later
       (Request (object [("ownerId", JStr "u2"); ("name", JStr "Device-1")])
          "507f1f77bcf86cd799439011" Sample.no_query Sample.u1)
       Sample.with_device
     = (Throw (TypeError "sessionSet.map is not a function"),
        Sample.with_device).
Proof.
  split; [by vm_compute|]. split; [reflexivity|]. split; [reflexivity|].
  split; [reflexivity|]. split; [apply POST_devices_throws|].
  split; [reflexivity|]. split; reflexivity.
Qed.

(** A machine that names itself as owner, on a create, or on an update
    of a viewer that it already owns (so that the first guard has
    nothing to refuse): the viewer routes reach their BadRequest branch,
    and [h.response] throws on the Boom error; the world is as before. *)
Lemma machine_names_itself_throws r rt request w s :
  Credentials.isMachine (credentials request) = true ->
  prop (payload request) "ownerId" = JStr s -> s <> "" ->
  Credentials.user (credentials request) = JStr s ->
  r = POST_collection
  \/ (r = PUT_item /\ params_valid request = true
      /\ exists d,
           first_match (by_id (params_id request)) (collection "viewers" w)
           = Some d
           /\ prop d "ownerId" = JStr s) ->
  handler viewers r rt request w = (Throw cannot_wrap, w).
Proof.
  intros Hm Hp Hs Hu Hr.
  assert (machine_owns_itself (JStr s) (credentials request) = true) as Hself.
  { unfold machine_owns_itself.
    by rewrite (truthy_JStr s Hs), Hu, Hm; cbn [strict_eq];
       rewrite String.eqb_refl. }
  destruct Hr as [->|(-> & Hid & d & Hd & Hown)]; unfold handler.
  - by rewrite POST_viewers_eq, Hp, Hu, cannot_set_owner_same, Hself.
  - rewrite PUT_viewers_id_eq, (ObjectID_valid _ Hid).
    fold (by_id (params_id request)). rewrite Hd, Hp, Hown. cbv zeta.
    by rewrite cannot_set_owner_same, Hself.
Qed.

(** No route of either service ever answers a Boom error: each refusal
    is handed to [h.response], which throws. *)
Lemma no_error_response s r rt request w b :
  fst (handler s r rt request w) <> Normal (Failure b).
Proof.
  destruct s, r; unfold handler.
  - unfold Devices.GET_devices. rewrite list_route_eq.
    destruct (list_search _); [|done..]. cbv zeta.
    by destruct (for_each _ _).
  - by rewrite POST_devices_throws.
  - unfold Devices.GET_devices_id. run.
    destruct (ObjectID _); [|done..].
    destruct (first_match _ _); [|done]. by destruct (id_from__id _).
  - unfold Devices.PUT_devices_id. run. rewrite sessionSet_map.
    destruct (ObjectID _); [|done..].
    destruct (first_match _ _); [|done].
    by destruct (new_Set _).
  - unfold Devices.DELETE_devices_id. run.
    destruct (ObjectID _); [|done..].
    destruct (first_match _ _); [|done]. by destruct (id_from__id _).
  - unfold Viewers.GET_viewers. rewrite list_route_eq.
    destruct (list_search _); [|done..]. cbv zeta.
    by destruct (for_each _ _).
  - rewrite POST_viewers_eq. cbv zeta.
    destruct (cannot_set_owner _ _ _) as [[|]| |]; try done.
    destruct (machine_owns_itself _ _); [done|].
    by destruct (existsb _ _).
  - rewrite GET_viewers_id_eq.
    destruct (ObjectID _); [|done..].
    destruct (first_match _ _); [|done]. by destruct (id_from__id _).
  - rewrite PUT_viewers_id_eq.
    destruct (ObjectID _); [|done..].
    destruct (first_match _ _); [|done]. cbv zeta.
    destruct (cannot_set_owner _ _ _) as [[|]| |]; try done.
    by destruct (machine_owns_itself _ _).
  - rewrite DELETE_viewers_id_eq.
    destruct (ObjectID _); [|done..].
    destruct (first_match _ _); [|done]. by destruct (id_from__id _).
Qed.

(** C2, checked on runs.  A machine names itself as owner, and no route
    answers BadRequest.  On a viewer create, and on an update of the
    viewer it owns, the handler reaches
    [return h.response(Boom.badRequest(...))], and [h.response] throws
    ['Cannot wrap an error'].  On an update of [u1]'s viewer the first
    guard comes first and throws the TypeError of [scopes.contains], also
    for the machine [m2] that holds [impersonate_user].  The device
    create throws the ReferenceError of [creatorId], the device update
    the TypeError of [sessionSet.map].  None of them writes.  Indeed no
    request to either service, whatever it is, is answered BadRequest. *)
Theorem machine_self_owner_throws :
  Credentials.isMachine (credentials Sample.machine_create_for_itself) = true
  /\ payload_schema viewers (payload Sample.machine_create_for_itself) = true
  /\ prop (payload Sample.machine_create_for_itself) "ownerId"
     = Credentials.user (credentials Sample.machine_create_for_itself)
  /\ handler viewers POST_collection Sample.rt
       Sample.machine_create_for_itself start
     = (Throw (PlainError "Cannot wrap an error"), start)
  /\ handler viewers PUT_item Sample.later Sample.machine_takes_over
       Sample.after_machine_create
     = (Throw (PlainError "Cannot wrap an error"),
        Sample.after_machine_create)
  /\ handler viewers PUT_item Sample.later Sample.machine_takes_over
       Sample.after_create
     = (Throw (TypeError
          "request.auth.credentials.scopes.contains is not a function"),
        Sample.after_create)
  /\ Credentials.scopes Sample.m2 = [JStr "impersonate_user"]
  /\ handler viewers PUT_item Sample.later
       (Request (object [("ownerId", JStr "m2")]) "507f1f77bcf86cd799439011"
          Sample.no_query Sample.m2)
       Sample.after_create
     = (Throw (TypeError
          "request.auth.credentials.scopes.contains is not a function"),
        Sample.after_create)
  /\ handler devices POST_collection Sample.rt
       (Request (object [("ownerId", JStr "m1"); ("name", JStr "Device-1")])
          "" Sample.no_query Sample.m1)
       start
     = (Throw (ReferenceError "creatorId is not defined"), start)
  /\ handler devices PUT_item Sample.later
       (Request (object [("ownerId", JStr "m1"); ("name", JStr "Device-1")])
          "507f1f77bcf86cd799439011" Sample.no_query Sample.m1)
       Sample.with_device
     = (Throw (TypeError "sessionSet.map is not a function"),
        Sample.with_device)
  /\ forall s r rt request w m,
       fst (handler s r rt request w) <> Normal (Failure (Boom.badRequest m)).
Proof.
  split; [reflexivity|]. split; [by vm_compute|]. split; [reflexivity|].
  split; [reflexivity|]. split; [reflexivity|]. split; [reflexivity|].
  split; [reflexivity|]. split; [reflexivity|].
  split; [apply POST_devices_throws|]. split; [reflexivity|].
  intros s r rt request w m. apply no_error_response.
Qed.

(** [DELETE /devices/{id}] never writes: the handler has no [deleteOne]. *)
Lemma DELETE_devices_id_world request w :
  snd (Devices.DELETE_devices_id request w) = w.
Proof.
  unfold Devices.DELETE_devices_id. run.
  destruct (ObjectID _); [|done..].
  destruct (first_match _ _); [|done].
  by destruct (id_from__id _).
Qed.

(** ** The handlers stay within the described fragment *)

Lemma first_match_has_ObjectID search l d :
  forallb has_ObjectID l = true -> first_match search l = Some d ->
  exists h, d !! "_id" = Some (JObjectID h).
Proof.
  intros Hall Hd. apply first_match_Some in Hd as [Hin _].
  rewrite forallb_forall in Hall. apply list_elem_of_In, Hall in Hin.
  unfold has_ObjectID in Hin.
  destruct (d !! "_id") as [[]|]; try discriminate. by eexists.
Qed.

Lemma list_search_valid q :
  query_valid q = true -> exists search, list_search q = Normal search.
Proof.
  unfold query_valid, list_search. intros H.
  apply andb_prop in H as [H _]. apply andb_prop in H as [H _].
  apply andb_prop in H as [_ H].
  destruct (Query.sessionId q) as [s|]; simpl in H; [|by eexists].
  rewrite (Joi_objectId_truthy s H), (ObjectID_valid s H).
  by eexists.
Qed.

Lemma viewers_ok_has_ObjectID l :
  viewers_ok l -> forallb has_ObjectID l = true.
Proof.
  intros [Hall _]. apply forallb_forall. intros d Hd.
  rewrite Forall_forall in Hall. by apply Hall, list_elem_of_In.
Qed.

Lemma cannot_set_owner_modelled ownerId baseline c :
  cannot_set_owner ownerId (Normal baseline) c <> Unmodelled.
Proof.
  unfold cannot_set_owner. rewrite scopes_contains.
  destruct (truthy ownerId); [|done]. cbn [and_then].
  destruct (negb (strict_eq ownerId baseline)); [|done].
  by destruct (negb (Credentials.isMachine c)).
Qed.

(** On a collection whose documents carry ObjectIDs, a validated request
    ends with a response or with an exception of the program: the
    handlers never reach a construct left undescribed. *)
Lemma handler_modelled s r rt request w :
  forallb has_ObjectID (collection (collection_of s) w) = true ->
  validated r request = true ->
  fst (handler s r rt request w) <> Unmodelled.
Proof.
  intros Hall Hv.
  assert (forall name, collection name w = collection (collection_of s) w ->
            query_valid (query request) = true ->
            fst (list_route name request w) <> Unmodelled) as Hlist.
  { intros name Hname Hq.
    destruct (list_search_valid _ Hq) as [search Hs].
    rewrite <- Hname in Hall.
    destruct (list_route_page name request w search Hs Hall) as (res & -> & _).
    done. }
  destruct s, r; unfold handler, validated, collection_of in *.
  - by apply Hlist.
  - by rewrite POST_devices_throws.
  - unfold Devices.GET_devices_id. run. rewrite (ObjectID_valid _ Hv).
    destruct (first_match _ _) as [d|] eqn:Hd; [|done].
    destruct (first_match_has_ObjectID _ _ _ Hall Hd) as [h Hh].
    by rewrite (id_from__id_ObjectID d h Hh).
  - unfold Devices.PUT_devices_id. run. rewrite (ObjectID_valid _ Hv).
    rewrite sessionSet_map.
    destruct (first_match _ _) as [d|]; [|done].
    unfold new_Set. by destruct (prop _ _).
  - unfold Devices.DELETE_devices_id. run. rewrite (ObjectID_valid _ Hv).
    destruct (first_match _ _) as [d|] eqn:Hd; [|done].
    destruct (first_match_has_ObjectID _ _ _ Hall Hd) as [h Hh].
    by rewrite (id_from__id_ObjectID d h Hh).
  - by apply Hlist.
  - rewrite POST_viewers_eq. cbv zeta.
    pose proof (cannot_set_owner_modelled (prop (payload request) "ownerId")
                  (Credentials.user (credentials request))
                  (credentials request)) as Hguard.
    destruct (cannot_set_owner _ _ _) as [[|]| |]; try done.
    destruct (machine_owns_itself _ _); [done|].
    by destruct (existsb _ _).
  - rewrite GET_viewers_id_eq, (ObjectID_valid _ Hv).
    destruct (first_match _ _) as [d|] eqn:Hd; [|done].
    destruct (first_match_has_ObjectID _ _ _ Hall Hd) as [h Hh].
    by rewrite (id_from__id_ObjectID d h Hh).
  - rewrite PUT_viewers_id_eq, (ObjectID_valid _ Hv).
    destruct (first_match _ _) as [d|]; [|done]. cbv zeta.
    pose proof (cannot_set_owner_modelled (prop (payload request) "ownerId")
                  (prop d "ownerId") (credentials request)) as Hguard.
    destruct (cannot_set_owner _ _ _) as [[|]| |]; try done.
    by destruct (machine_owns_itself _ _).
  - rewrite DELETE_viewers_id_eq, (ObjectID_valid _ Hv).
    destruct (first_match _ _) as [d|] eqn:Hd; [|done].
    destruct (first_match_has_ObjectID _ _ _ Hall Hd) as [h Hh].
    by rewrite (id_from__id_ObjectID d h Hh).
Qed.

Lemma viewers_modelled w r rt request :
  reachable w -> validated r request = true ->
  fst (handler viewers r rt request w) <> Unmodelled.
Proof.
  intros Hw. apply handler_modelled.
  by apply viewers_ok_has_ObjectID, reachable_ok.
Qed.

(** * Further properties of the two services *)

(** ** Missing documents and empty collections *)

Lemma stored_false name id w :
  stored name id w = false ->
  first_match (object [("_id", JObjectID (string_map lower_hex id))])
    (collection name w) = None.
Proof. unfold stored. by destruct (first_match _ _). Qed.

(** X1: on both services, a read, an update or a delete of an id under
    which nothing is stored does not answer NotFound: the handler goes
    to [return h.response(Boom.notFound(...))], where [h.response]
    throws ['Cannot wrap an error'], so the request ends by that
    exception; the world is left as it was. *)
Theorem missing_id_throws s r rt request w :
  r = GET_item \/ r = PUT_item \/ r = DELETE_item ->
  params_valid request = true ->
  stored (collection_of s) (params_id request) w = false ->
  handler s r rt request w
  = (Throw (PlainError "Cannot wrap an error"), w).
Proof.
  intros Hr Hid Hs. apply stored_false in Hs.
  destruct s; destruct Hr as [->|[->| ->]];
    unfold handler, collection_of in *.
  - unfold Devices.GET_devices_id. run.
    by rewrite (ObjectID_valid _ Hid), Hs.
  - unfold Devices.PUT_devices_id. run.
    by rewrite (ObjectID_valid _ Hid), Hs.
  - unfold Devices.DELETE_devices_id. run.
    by rewrite (ObjectID_valid _ Hid), Hs.
  - by rewrite GET_viewers_id_eq, (ObjectID_valid _ Hid), Hs.
  - by rewrite PUT_viewers_id_eq, (ObjectID_valid _ Hid), Hs.
  - by rewrite DELETE_viewers_id_eq, (ObjectID_valid _ Hid), Hs.
Qed.

Lemma missing_id_throws_witness :
  (PUT_item = GET_item \/ PUT_item = PUT_item \/ PUT_item = DELETE_item)
  /\ params_valid Sample.device_update_request = true
  /\ stored (collection_of devices) (params_id Sample.device_update_request)
       start = false
  /\ handler devices PUT_item Sample.rt Sample.device_update_request start
     = (Throw (PlainError "Cannot wrap an error"), start).
Proof.
  assert (PUT_item = GET_item \/ PUT_item = PUT_item \/ PUT_item = DELETE_item)
    as H1 by (right; left; reflexivity).
  assert (params_valid Sample.device_update_request = true) as H2
    by (vm_compute; reflexivity).
  assert (stored (collection_of devices)
            (params_id Sample.device_update_request) start = false) as H3
    by (vm_compute; reflexivity).
  split; [exact H1|]. split; [exact H2|]. split; [exact H3|].
  exact (missing_id_throws devices PUT_item Sample.rt
           Sample.device_update_request start H1 H2 H3).
Defined.

(** X2: a list request on an empty collection is no error: it answers
    the empty page, with [count = 0] and [total = 0] and the request's
    own [skip] and [limit], whatever the filters are. *)
Theorem empty_collection_lists_nothing s rt request w :
  query_valid (query request) = true ->
  collection (collection_of s) w = [] ->
  handler s GET_collection rt request w
  = (Normal (Page (Metadata.Build 0 (Query.skip (query request))
                     (Query.limit (query request)) 0) []),
     w).
Proof.
  intros Hq Hempty.
  destruct (list_search_valid _ Hq) as [search Hs].
  assert (list_route (collection_of s) request w
          = (Normal (Page (Metadata.Build 0 (Query.skip (query request))
                             (Query.limit (query request)) 0) []),
             w)) as H.
  { rewrite list_route_eq, Hs, Hempty. cbv zeta.
    unfold Cursor.toArray, Cursor.count, Cursor.skip, Cursor.limit.
    cbn [List.filter Cursor.matched Cursor.cursorSkip Cursor.cursorLimit].
    rewrite window_nil. reflexivity. }
  by destruct s.
Qed.

Lemma empty_collection_lists_nothing_witness :
  query_valid (query (Request ∅ "" (Query.Build 3 10 (Some "u1")
                                      (Some Sample.session_a)) Sample.u1))
  = true
  /\ collection (collection_of viewers) start = []
  /\ handler viewers GET_collection Sample.rt
       (Request ∅ "" (Query.Build 3 10 (Some "u1") (Some Sample.session_a))
          Sample.u1)
       start
     = (Normal (Page (Metadata.Build 0 3 10 0) []), start).
Proof.
  assert (query_valid
            (query (Request ∅ "" (Query.Build 3 10 (Some "u1")
                                    (Some Sample.session_a)) Sample.u1))
          = true) as H1 by (vm_compute; reflexivity).
  assert (collection (collection_of viewers) start = []) as H2
    by reflexivity.
  split; [exact H1|]. split; [exact H2|].
  exact (empty_collection_lists_nothing viewers Sample.rt
           (Request ∅ "" (Query.Build 3 10 (Some "u1")
                            (Some Sample.session_a)) Sample.u1)
           start H1 H2).
Defined.

(** ** What a request leaves alone *)

(** X3: no route of the device service ever changes the world: the list
    and read routes only read, the create route throws before
    [insertOne], the update route finds nothing or throws before
    [updateOne], and the delete route has no [deleteOne]. *)
Theorem device_service_never_writes r rt request w :
  snd (handler devices r rt request w) = w.
Proof.
  destruct r; unfold handler.
  - unfold Devices.GET_devices. rewrite list_route_eq.
    destruct (list_search _); [|done..]. cbv zeta.
    by destruct (for_each _ _).
  - by rewrite POST_devices_throws.
  - unfold Devices.GET_devices_id. run.
    destruct (ObjectID _); [|done..].
    destruct (first_match _ _); [|done]. by destruct (id_from__id _).
  - apply PUT_devices_id_world.
  - apply DELETE_devices_id_world.
Qed.



(** X5: a request that the viewer service answers with a resource sends
    exactly one record when it is a create, an update or a delete, named
    after the route, with the token the plugin holds at that moment, the
    answered resource, and that resource's [id] property as [viewerId];
    a read sends none.  The token itself is never changed by a request. *)
Theorem accepted_request_emits_once r rt request w body w' :
  handler viewers r rt request w = (Normal (Resource body), w') ->
  eventApi_token w' = eventApi_token w
  /\ socket_emitted w'
     = socket_emitted w ++
       match event_name r with
       | Some name =>
           [(name, Event.Build name (eventApi_token w) (prop body "id") body)]
       | None => []
       end.
Proof.
  intros H. destruct r; unfold handler in H; cbn [event_name].
  - unfold Viewers.GET_viewers in H. rewrite list_route_eq in H.
    destruct (list_search _); [|by inversion H..]. cbv zeta in H.
    destruct (for_each _ _); by inversion H.
  - rewrite POST_viewers_eq in H. cbv zeta in H.
    destruct (cannot_set_owner _ _ _) as [[|]| |]; try by inversion H.
    destruct (machine_owns_itself _ _); [by inversion H|].
    destruct (existsb _ _); [by inversion H|].
    by inversion H.
  - rewrite GET_viewers_id_eq in H.
    destruct (ObjectID _); [|by inversion H..].
    destruct (first_match _ _); [|by inversion H].
    destruct (id_from__id _); inversion H; subst.
    by rewrite app_nil_r.
  - rewrite PUT_viewers_id_eq in H.
    destruct (ObjectID _); [|by inversion H..].
    destruct (first_match _ _); [|by inversion H]. cbv zeta in H.
    destruct (cannot_set_owner _ _ _) as [[|]| |]; try by inversion H.
    destruct (machine_owns_itself _ _); [by inversion H|].
    by inversion H.
  - rewrite DELETE_viewers_id_eq in H.
    destruct (ObjectID _); [|by inversion H..].
    destruct (first_match _ _); [|by inversion H].
    destruct (id_from__id _); by inversion H.
Qed.

Lemma accepted_request_emits_once_witness :
  handler viewers DELETE_item Sample.rt Sample.item_request
    Sample.after_create
  = (Normal (Resource
       (delete "_id" (<["id" := JStr "507f1f77bcf86cd799439011"]>
                        (new_viewer Sample.rt Sample.create_request)))),
     snd (handler viewers DELETE_item Sample.rt Sample.item_request
            Sample.after_create))
  /\ eventApi_token
       (snd (handler viewers DELETE_item Sample.rt Sample.item_request
               Sample.after_create))
     = eventApi_token Sample.after_create
  /\ socket_emitted
       (snd (handler viewers DELETE_item Sample.rt Sample.item_request
               Sample.after_create))
     = socket_emitted Sample.after_create ++
       match event_name DELETE_item with
       | Some name =>
           [(name,
             Event.Build name (eventApi_token Sample.after_create)
               (prop (delete "_id"
                        (<["id" := JStr "507f1f77bcf86cd799439011"]>
                           (new_viewer Sample.rt Sample.create_request)))
                     "id")
               (delete "_id" (<["id" := JStr "507f1f77bcf86cd799439011"]>
                                (new_viewer Sample.rt Sample.create_request))))]
       | None => []
       end.
Proof.
  assert (handler viewers DELETE_item Sample.rt Sample.item_request
            Sample.after_create
          = (Normal (Resource
               (delete "_id" (<["id" := JStr "507f1f77bcf86cd799439011"]>
                                (new_viewer Sample.rt Sample.create_request)))),
             snd (handler viewers DELETE_item Sample.rt Sample.item_request
                    Sample.after_create))) as H1 by reflexivity.
  split; [exact H1|].
  exact (accepted_request_emits_once DELETE_item Sample.rt Sample.item_request
           Sample.after_create _ _ H1).
Defined.

(** ** Accepted creates *)

Lemma strict_eq_eq a b : strict_eq a b = true -> a = b.
Proof.
  destruct a, b; simpl; try discriminate; try done.
  by intros ->%String.eqb_eq.
Qed.

(** When the first guard lets a request pass, the payload names no
    owner, or it names the baseline owner. *)
Lemma cannot_set_owner_passes ownerId baseline c :
  cannot_set_owner ownerId (Normal baseline) c = Normal false ->
  truthy ownerId = false \/ ownerId = baseline.
Proof.
  unfold cannot_set_owner. rewrite scopes_contains.
  destruct (truthy ownerId); [|by left]. cbn [and_then].
  destruct (strict_eq ownerId baseline) eqn:E; cbn [negb].
  - intros _. right. by apply strict_eq_eq.
  - by destruct (negb (Credentials.isMachine c)).
Qed.

Lemma resulting_owner ownerId baseline c :
  cannot_set_owner ownerId (Normal baseline) c = Normal false ->
  (if truthy ownerId then ownerId else baseline) = baseline.
Proof.
  intros [->| ->]%cannot_set_owner_passes; [done|].
  by destruct (truthy baseline).
Qed.

Lemma exposed_lookup (d : doc) h k :
  k <> "_id" -> k <> "id" ->
  (delete "_id" (<["id" := JStr h]> d) : doc) !! k = d !! k.
Proof. intros H1 H2. by rewrite lookup_delete_ne, lookup_insert_ne. Qed.

(** X6: whenever [POST /viewers] answers a resource, the caller is its
    owner, creator and updator (no accepted create makes a viewer for
    someone else), its dates are the two instants read, its [sessionId]
    is the payload's, its [id] is the generated id, and the collection
    has grown by exactly one document: it has the generated [_id], no
    [id], and every other property of the answered resource as the
    driver writes it, [null] where the resource has [undefined]. *)
Theorem viewer_create_accepted rt request w body w' :
  Viewers.POST_viewers rt request w = (Normal (Resource body), w') ->
  body !! "id" = Some (JStr (generated_id rt))
  /\ body !! "ownerId" = Some (Credentials.user (credentials request))
  /\ body !! "creatorId" = Some (Credentials.user (credentials request))
  /\ body !! "updatorId" = Some (Credentials.user (credentials request))
  /\ body !! "createdDate" = Some (JDate (now rt))
  /\ body !! "updatedDate" = Some (JDate (now' rt))
  /\ body !! "sessionId" = Some (prop (payload request) "sessionId")
  /\ exists d,
       collection "viewers" w' = collection "viewers" w ++ [d]
       /\ d !! "_id" = Some (JObjectID (generated_id rt))
       /\ d !! "id" = None
       /\ forall k, k <> "_id" -> k <> "id" -> d !! k = bson <$> body !! k.
Proof.
  rewrite POST_viewers_eq. cbv zeta.
  destruct (cannot_set_owner _ _ _) as [[|]| |] eqn:Hguard; try done.
  destruct (machine_owns_itself _ _); [done|].
  destruct (existsb _ _); [done|].
  intros [= <- <-]. apply resulting_owner in Hguard.
  assert (new_viewer rt request !! "ownerId"
          = Some (Credentials.user (credentials request))) as Hown.
  { unfold new_viewer. rewrite Hguard. reflexivity. }
  split; [apply id_from__id_keys|].
  rewrite !exposed_lookup by done.
  repeat (split; [done || reflexivity|]).
  exists (serialize (new_viewer rt request)).
  rewrite collection_insert. split; [done|].
  split; [apply serialize_id, new_viewer_id|].
  split.
  - rewrite serialize_lookup.
    by rewrite (viewer_document_id _ (new_viewer_document rt request)).
  - intros k Hk Hk'. by rewrite exposed_lookup, serialize_lookup.
Qed.

Lemma viewer_create_accepted_witness :
  Viewers.POST_viewers Sample.rt Sample.create_request start
  = (Normal (Resource
       (delete "_id" (<["id" := JStr "507f1f77bcf86cd799439011"]>
                        (new_viewer Sample.rt Sample.create_request)))),
     Sample.after_create)
  /\ delete "_id" (<["id" := JStr "507f1f77bcf86cd799439011"]>
                     (new_viewer Sample.rt Sample.create_request))
     !! "ownerId" = Some (JStr "u1").
Proof.
  assert (Viewers.POST_viewers Sample.rt Sample.create_request start
          = (Normal (Resource
               (delete "_id" (<["id" := JStr "507f1f77bcf86cd799439011"]>
                                (new_viewer Sample.rt Sample.create_request)))),
             Sample.after_create)) as H1 by reflexivity.
  split; [exact H1|].
  exact (proj1 (proj2 (viewer_create_accepted Sample.rt Sample.create_request
                         start _ _ H1))).
Defined.

(** ** Round trips *)






(** ** Accepted updates *)

Lemma first_match_update_same search set l d :
  first_match search l = Some d ->
  matches search (set ∪ d) = true ->
  first_match search (update_first search set l) = Some (set ∪ d).
Proof.
  induction l as [|e l IH]; simpl; [done|].
  destruct (matches search e) eqn:He; simpl.
  - intros [= ->] ->. done.
  - intros Hd Hm. rewrite He. by apply IH.
Qed.

Lemma update_first_length search set (l : list doc) :
  length (update_first search set l) = length l.
Proof.
  induction l as [|e l IH]; simpl; [done|].
  destruct (matches search e); simpl; by rewrite ?IH.
Qed.

Lemma viewer_document_owner d :
  viewer_document d -> d !! "ownerId" = Some (prop d "ownerId").
Proof.
  intros [Hdom _]. unfold prop.
  assert ("ownerId" ∈ dom d) as [v Hv]%elem_of_dom.
  { rewrite Hdom. eapply bool_decide_eq_true_1. vm_compute. reflexivity. }
  by rewrite Hv.
Qed.

(** X8: whenever [PUT /viewers/{id}] answers a resource, in a reachable
    world, the owner is the one the viewer had before (no accepted
    update reassigns a viewer), the updator is the caller, [updatedDate]
    is the instant read and [sessionId] is the payload's; the answered
    document now stored under that id is the answered resource as the
    driver writes it ([null] where the resource has [undefined]), and
    the collection has as many documents as before. *)
Theorem viewer_update_accepted w rt request body w' :
  reachable w ->
  Viewers.PUT_viewers_id rt request w = (Normal (Resource body), w') ->
  exists d,
    first_match (by_id (params_id request)) (collection "viewers" w) = Some d
    /\ body !! "ownerId" = d !! "ownerId"
    /\ body !! "updatorId" = Some (Credentials.user (credentials request))
    /\ body !! "updatedDate" = Some (JDate (now rt))
    /\ body !! "sessionId" = Some (prop (payload request) "sessionId")
    /\ first_match (by_id (params_id request)) (collection "viewers" w')
       = Some (serialize body)
    /\ length (collection "viewers" w') = length (collection "viewers" w).
Proof.
  intros Hw. rewrite PUT_viewers_id_eq.
  destruct (ObjectID _) as [o| |] eqn:Ho; [|done..].
  apply ObjectID_Normal in Ho as [_ ->]. fold (by_id (params_id request)).
  destruct (first_match _ _) as [d|] eqn:Hd; [|done].
  destruct (first_match_viewer _ _ _ (reachable_ok w Hw) Hd) as [Hdoc Hid].
  cbv zeta.
  destruct (cannot_set_owner _ _ _) as [[|]| |] eqn:Hguard; try done.
  destruct (machine_owns_itself _ _); [done|].
  intros [= <- <-]. apply resulting_owner in Hguard. exists d.
  split; [done|]. split.
  { rewrite (viewer_document_owner d Hdoc).
    apply lookup_union_Some_l. unfold viewer_set. rewrite Hguard.
    reflexivity. }
  split; [by apply lookup_union_Some_l|].
  split; [by apply lookup_union_Some_l|].
  split; [by apply lookup_union_Some_l|].
  rewrite collection_insert. split; [|apply update_first_length].
  assert (serialize d = d) as Hser.
  { pose proof (reachable_serialized w Hw) as Hall.
    rewrite Forall_forall in Hall. apply Hall.
    by apply first_match_Some in Hd as [Hin _]. }
  rewrite (serialize_union _ _ Hser).
  apply first_match_update_same; [done|].
  unfold by_id. rewrite matches_id_set by reflexivity.
  by apply first_match_Some in Hd as [_ Hm].
Qed.

Lemma viewer_update_accepted_witness :
  reachable Sample.after_create
  /\ Viewers.PUT_viewers_id Sample.later Sample.update_request
       Sample.after_create
     = (Normal (Resource
          (viewer_set Sample.later Sample.update_request
             (new_viewer Sample.rt Sample.create_request)
           ∪ new_viewer Sample.rt Sample.create_request)),
        snd (Viewers.PUT_viewers_id Sample.later Sample.update_request
               Sample.after_create))
  /\ exists d,
       first_match (by_id (params_id Sample.update_request))
         (collection "viewers" Sample.after_create) = Some d
       /\ (viewer_set Sample.later Sample.update_request
             (new_viewer Sample.rt Sample.create_request)
           ∪ new_viewer Sample.rt Sample.create_request) !! "ownerId"
          = d !! "ownerId".
Proof.
  assert (reachable Sample.after_create) as H1
    by exact (reachable_request start POST_collection Sample.rt
                Sample.create_request reachable_start).
  assert (Viewers.PUT_viewers_id Sample.later Sample.update_request
            Sample.after_create
          = (Normal (Resource
               (viewer_set Sample.later Sample.update_request
                  (new_viewer Sample.rt Sample.create_request)
                ∪ new_viewer Sample.rt Sample.create_request)),
             snd (Viewers.PUT_viewers_id Sample.later Sample.update_request
                    Sample.after_create))) as H2 by reflexivity.
  split; [exact H1|]. split; [exact H2|].
  destruct (viewer_update_accepted Sample.after_create Sample.later
              Sample.update_request _ _ H1 H2) as (d & Hd & Hown & _).
  exists d. split; [exact Hd|exact Hown].
Defined.

(** ** The other viewers *)





(** ** Accepted deletes *)

Lemma delete_first_length search (l : list doc) d :
  first_match search l = Some d ->
  S (length (delete_first search l)) = length l.
Proof.
  induction l as [|e l IH]; simpl; [done|].
  destruct (matches search e); simpl; [done|].
  intros H. by rewrite IH.
Qed.

(** X10: whenever [DELETE /viewers/{id}] answers a resource, in a
    reachable world, the resource is the document that was stored under
    the id, read before the deletion and with [id] in place of [_id];
    the collection has one document less; nothing is stored under the id
    any more, and a read of it afterwards ends in the NotFound branch,
    by the exception of [h.response]. *)
Theorem viewer_delete_accepted w rt request body w' :
  reachable w ->
  Viewers.DELETE_viewers_id request w = (Normal (Resource body), w') ->
  (exists d,
     first_match (by_id (params_id request)) (collection "viewers" w) = Some d
     /\ body = delete "_id"
                 (<["id" := JStr (string_map lower_hex (params_id request))]> d))
  /\ S (length (collection "viewers" w')) = length (collection "viewers" w)
  /\ stored "viewers" (params_id request) w' = false
  /\ handler viewers GET_item rt request w'
     = (Throw (PlainError "Cannot wrap an error"), w').
Proof.
  intros Hw H.
  destruct (viewer_delete_removes w request body w' Hw H)
    as ((d & Hd & Hbody) & _ & _ & Hget).
  revert H. rewrite DELETE_viewers_id_eq.
  destruct (ObjectID _) as [o| |] eqn:Ho; [|done..].
  apply ObjectID_Normal in Ho as [Hvalid ->].
  fold (by_id (params_id request)). rewrite Hd, Hbody.
  intros [= <-].
  destruct (first_match_viewer _ _ _ (reachable_ok w Hw) Hd) as [_ Hid].
  rewrite (id_from__id_ObjectID d _ Hid) in Hbody.
  injection Hbody as <-.
  split; [by exists d|]. rewrite collection_insert.
  split; [by apply (delete_first_length _ _ d)|].
  split; [|exact Hget].
  unfold stored. fold (by_id (params_id request)).
  rewrite collection_insert. unfold by_id.
  by rewrite first_match_delete_first by apply reachable_ok, Hw.
Qed.

Lemma viewer_delete_accepted_witness :
  reachable Sample.after_create
  /\ Viewers.DELETE_viewers_id Sample.item_request Sample.after_create
     = (Normal (Resource
          (delete "_id" (<["id" := JStr "507f1f77bcf86cd799439011"]>
                           (new_viewer Sample.rt Sample.create_request)))),
        snd (Viewers.DELETE_viewers_id Sample.item_request
               Sample.after_create))
  /\ stored "viewers" (params_id Sample.item_request)
       (snd (Viewers.DELETE_viewers_id Sample.item_request
               Sample.after_create))
     = false.
Proof.
  assert (reachable Sample.after_create) as H1
    by exact (reachable_request start POST_collection Sample.rt
                Sample.create_request reachable_start).
  assert (Viewers.DELETE_viewers_id Sample.item_request Sample.after_create
          = (Normal (Resource
               (delete "_id" (<["id" := JStr "507f1f77bcf86cd799439011"]>
                                (new_viewer Sample.rt Sample.create_request)))),
             snd (Viewers.DELETE_viewers_id Sample.item_request
                    Sample.after_create))) as H2 by reflexivity.
  split; [exact H1|]. split; [exact H2|].
  exact (proj1 (proj2 (proj2
           (viewer_delete_accepted Sample.after_create Sample.rt
              Sample.item_request _ _ H1 H2)))).
Defined.

(** ** Human callers *)

(** X11: on the viewer routes, a caller that is not a machine and names
    another owner than the baseline (itself on a create, the viewer's
    current owner on an update) is never accepted, whatever scopes its
    token carries ([impersonate_user] included: the guard asks for a
    machine before it looks at the scopes).  The handler goes to
    [return h.response(Boom.unauthorized(...))] and ends there by the
    exception of [h.response], so no Unauthorized is answered either;
    the world stays as it was. *)
Theorem human_cannot_set_another_owner r rt request w s baseline :
  Credentials.isMachine (credentials request) = false ->
  prop (payload request) "ownerId" = JStr s -> s <> "" ->
  strict_eq (JStr s) baseline = false ->
  (r = POST_collection /\ baseline = Credentials.user (credentials request))
  \/ (r = PUT_item /\ params_valid request = true
      /\ exists d,
           first_match (by_id (params_id request)) (collection "viewers" w)
           = Some d
           /\ prop d "ownerId" = baseline) ->
  handler viewers r rt request w
  = (Throw (PlainError "Cannot wrap an error"), w).
Proof.
  intros Hm Hp Hs Hne [[-> ->]|(-> & Hid & d & Hd & <-)]; unfold handler.
  - by apply (viewer_owner_change_by_human_create rt request w s).
  - by apply (viewer_owner_change_by_human_update rt request w s d).
Qed.

Lemma human_cannot_set_another_owner_witness :
  Credentials.isMachine
    (credentials
       (Request (object [("ownerId", JStr "u2")]) "" Sample.no_query
          (Credentials.Build false (JStr "u1") [JStr "impersonate_user"])))
  = false
  /\ prop (payload
             (Request (object [("ownerId", JStr "u2")]) "" Sample.no_query
                (Credentials.Build false (JStr "u1")
                   [JStr "impersonate_user"])))
          "ownerId" = JStr "u2"
  /\ "u2" <> ""
  /\ strict_eq (JStr "u2") (JStr "u1") = false
  /\ handler viewers POST_collection Sample.rt
       (Request (object [("ownerId", JStr "u2")]) "" Sample.no_query
          (Credentials.Build false (JStr "u1") [JStr "impersonate_user"]))
       start
     = (Throw (PlainError "Cannot wrap an error"), start).
Proof.
  assert ("u2" <> "") as H3 by discriminate.
  split; [reflexivity|]. split; [reflexivity|]. split; [exact H3|].
  split; [reflexivity|].
  exact (human_cannot_set_another_owner POST_collection Sample.rt
           (Request (object [("ownerId", JStr "u2")]) "" Sample.no_query
              (Credentials.Build false (JStr "u1") [JStr "impersonate_user"]))
           start "u2" (JStr "u1") eq_refl eq_refl H3 eq_refl
           (or_introl (conj eq_refl eq_refl))).
Defined.

(** ** The earlier viewer service *)

Lemma list_route_world name request w :
  snd (list_route name request w) = w.
Proof.
  rewrite list_route_eq. destruct (list_search _); [|done..]. cbv zeta.
  by destruct (for_each _ _).
Qed.

Lemma GET_viewers_id_world request w :
  snd (Viewers.GET_viewers_id request w) = w.
Proof.
  rewrite GET_viewers_id_eq. destruct (ObjectID _); [|done..].
  destruct (first_match _ _); [|done]. by destruct (id_from__id _).
Qed.

(** X12: the earlier viewer service of [src/server.js] and the viewer
    service with the event API answer every request alike and leave the
    same database; the earlier one sends no record and never reads the
    token. *)
Theorem legacy_agrees r rt request w :
  fst (Legacy.handler r rt request w) = fst (handler viewers r rt request w)
  /\ db (snd (Legacy.handler r rt request w))
     = db (snd (handler viewers r rt request w))
  /\ socket_emitted (snd (Legacy.handler r rt request w)) = socket_emitted w
  /\ eventApi_token (snd (Legacy.handler r rt request w)) = eventApi_token w.
Proof.
  destruct r; unfold Legacy.handler, handler.
  - unfold Legacy.GET_viewers, Viewers.GET_viewers.
    by rewrite list_route_world.
  - rewrite POST_viewers_eq. unfold Legacy.POST_viewers. run.
    fold (new_viewer rt request). rewrite new_viewer_id. cbv beta iota zeta.
    destruct (cannot_set_owner _ _ _) as [[|]| |]; try done.
    destruct (machine_owns_itself _ _); [done|].
    by destruct (existsb _ _).
  - change (Legacy.GET_viewers_id request w)
      with (Viewers.GET_viewers_id request w).
    by rewrite GET_viewers_id_world.
  - rewrite PUT_viewers_id_eq. unfold Legacy.PUT_viewers_id. run.
    destruct (ObjectID _) as [o| |]; [|done..].
    destruct (first_match _ _) as [d|]; [|done]. cbv zeta.
    destruct (cannot_set_owner _ _ _) as [[|]| |]; try done.
    by destruct (machine_owns_itself _ _).
  - rewrite DELETE_viewers_id_eq. unfold Legacy.DELETE_viewers_id. run.
    destruct (ObjectID _) as [o| |]; [|done..].
    destruct (first_match _ _) as [d|]; [|done].
    unfold id_from__id, and_then. by destruct (toString _).
Qed.

(** ** Invariants of the viewer collection *)

(** X13: in every world the viewer service can reach, each stored
    viewer has exactly the seven properties that a create writes, its
    [_id] is an ObjectID, and no two stored viewers have the same
    [_id]. *)
Theorem reachable_viewers_well_formed w :
  reachable w ->
  Forall (fun d : doc =>
            dom d = viewer_keys /\ exists h, d !! "_id" = Some (JObjectID h))
         (collection "viewers" w)
  /\ NoDup (map hex_of (collection "viewers" w)).
Proof.
  intros [Hall Hnd]%reachable_ok. split; [|done].
  eapply Forall_impl; [exact Hall|]. intros d [Hdom Hid]. split; [done|].
  unfold has_ObjectID in Hid.
  destruct (d !! "_id") as [[]|]; try discriminate. by eexists.
Qed.

Lemma reachable_viewers_well_formed_witness :
  reachable Sample.after_create
  /\ Forall (fun d : doc =>
               dom d = viewer_keys
               /\ exists h, d !! "_id" = Some (JObjectID h))
            (collection "viewers" Sample.after_create)
  /\ NoDup (map hex_of (collection "viewers" Sample.after_create)).
Proof.
  assert (reachable Sample.after_create) as H1
    by exact (reachable_request start POST_collection Sample.rt
                Sample.create_request reachable_start).
  split; [exact H1|].
  exact (reachable_viewers_well_formed Sample.after_create H1).
Defined.

Lemma handler_owner_is_creator r rt request w :
  viewers_ok (collection "viewers" w) ->
  Forall (fun d : doc => serialize d = d) (collection "viewers" w) ->
  Forall (fun d : doc => d !! "ownerId" = d !! "creatorId")
         (collection "viewers" w) ->
  Forall (fun d : doc => d !! "ownerId" = d !! "creatorId")
         (collection "viewers" (snd (handler viewers r rt request w))).
Proof.
  intros Hok Hser Hall. destruct r; unfold handler.
  - unfold Viewers.GET_viewers. by rewrite list_route_world.
  - rewrite POST_viewers_eq. cbv zeta.
    destruct (cannot_set_owner _ _ _) as [[|]| |] eqn:Hguard; try done.
    destruct (machine_owns_itself _ _); [done|].
    destruct (existsb _ _); [done|].
    cbn [snd]. rewrite collection_World, collection_set_eq.
    apply Forall_app. split; [done|]. constructor; [|constructor].
    apply resulting_owner in Hguard. rewrite !serialize_lookup.
    unfold new_viewer. rewrite Hguard. reflexivity.
  - by rewrite GET_viewers_id_world.
  - rewrite PUT_viewers_id_eq.
    destruct (ObjectID _) as [o| |]; [|done..].
    destruct (first_match _ _) as [d|] eqn:Hd; [|done]. cbv zeta.
    destruct (cannot_set_owner _ _ _) as [[|]| |] eqn:Hguard; try done.
    destruct (machine_owns_itself _ _); [done|].
    cbn [snd]. rewrite collection_World, collection_set_eq.
    apply Forall_update_first; [done|]. intros d' Hd'.
    rewrite Hd in Hd'. injection Hd' as <-.
    destruct (first_match_viewer _ _ _ Hok Hd) as [Hdoc _].
    apply first_match_Some in Hd as [Hin _].
    rewrite Forall_forall in Hall, Hser.
    specialize (Hall d Hin). specialize (Hser d Hin).
    apply resulting_owner in Hguard.
    rewrite (lookup_union_r _ d "creatorId") by reflexivity.
    rewrite <- Hall, (viewer_document_owner d Hdoc).
    apply lookup_union_Some_l. rewrite serialize_lookup.
    unfold viewer_set. rewrite Hguard. cbn [fmap option_fmap option_map].
    change (Some (bson (prop d "ownerId")) = Some (prop d "ownerId")).
    f_equal. by apply (serialized_lookup d "ownerId"), viewer_document_owner.
  - rewrite DELETE_viewers_id_eq.
    destruct (ObjectID _) as [o| |]; [|done..].
    destruct (first_match _ _) as [d|]; [|done].
    destruct (id_from__id _); [|done..].
    cbn [snd]. rewrite collection_World, collection_set_eq.
    rewrite Forall_forall in Hall |- *. intros e He. apply Hall.
    eapply elem_of_sublist; [done|]. apply delete_first_sublist.
Qed.

(** X14: in every world the viewer service can reach, the owner of each
    stored viewer is its creator: a create makes the caller both, and no
    update is accepted that would change the owner. *)
Theorem reachable_owner_is_creator w :
  reachable w ->
  Forall (fun d : doc => d !! "ownerId" = d !! "creatorId")
         (collection "viewers" w).
Proof.
  induction 1 as [|w r rt request Hw IH|w t _ IH].
  - constructor.
  - apply handler_owner_is_creator;
      [by apply reachable_ok|by apply reachable_serialized|done].
  - done.
Qed.

Lemma reachable_owner_is_creator_witness :
  reachable Sample.after_create
  /\ Forall (fun d : doc => d !! "ownerId" = d !! "creatorId")
            (collection "viewers" Sample.after_create).
Proof.
  assert (reachable Sample.after_create) as H1
    by exact (reachable_request start POST_collection Sample.rt
                Sample.create_request reachable_start).
  split; [exact H1|].
  exact (reachable_owner_is_creator Sample.after_create H1).
Defined.

(** ** Pages *)

Lemma for_each_Forall2 f l results :
  for_each f l = Normal results ->
  Forall2 (fun (r d : doc) => f d = Normal r) results l.
Proof.
  revert results. induction l as [|d l IH]; simpl; intros results.
  - intros [= <-]. constructor.
  - destruct (f d) as [d'| |] eqn:Hd; try done. simpl.
    destruct (for_each f l) as [r| |]; try done. simpl.
    intros [= <-]. constructor; [done|by apply IH].
Qed.

Lemma window_limited c :
  1 <= Cursor.cursorLimit c ->
  Cursor.window c
  = take (Cursor.cursorLimit c) (drop (Cursor.cursorSkip c) (Cursor.matched c)).
Proof.
  intros H. unfold Cursor.window.
  destruct (Cursor.cursorLimit c); [lia|done].
Qed.

(** X15: a page of a list route, on either service, for any filters,
    [skip] and [limit >= 1], over documents that carry ObjectIDs:
    [total] is the number of documents that match the filters, [count]
    is [min limit (total - skip)] and is the number of results, and the
    results are the matching documents from position [skip] on, at most
    [limit] of them, in the order of the store, each with [id] in place
    of [_id]. *)
Theorem list_page_bounds s rt request w search :
  list_search (query request) = Normal search ->
  forallb has_ObjectID (collection (collection_of s) w) = true ->
  1 <= Query.limit (query request) ->
  exists results,
    handler s GET_collection rt request w
    = (Normal (Page
         (Metadata.Build
            (min (Query.limit (query request))
               (length (List.filter (matches search)
                          (collection (collection_of s) w))
                - Query.skip (query request)))
            (Query.skip (query request))
            (Query.limit (query request))
            (length (List.filter (matches search)
                       (collection (collection_of s) w))))
         results),
       w)
    /\ length results
       = min (Query.limit (query request))
           (length (List.filter (matches search)
                      (collection (collection_of s) w))
            - Query.skip (query request))
    /\ Forall2 (fun (r d : doc) => id_from__id d = Normal r) results
         (take (Query.limit (query request))
            (drop (Query.skip (query request))
               (List.filter (matches search)
                  (collection (collection_of s) w)))).
Proof.
  intros Hs Hall Hlimit.
  assert (handler s GET_collection rt request w
          = list_route (collection_of s) request w) as -> by by destruct s.
  rewrite list_route_eq, Hs. cbv zeta.
  set (cursor := Cursor.limit _ _).
  assert (Cursor.window cursor
          = take (Query.limit (query request))
              (drop (Query.skip (query request))
                 (List.filter (matches search)
                    (collection (collection_of s) w)))) as Hwin
    by by apply (window_limited cursor).
  destruct (for_each_ids (Cursor.window cursor)) as (r & Hr & Hlen).
  { apply forallb_window. by apply forallb_filter. }
  unfold Cursor.toArray, Cursor.count. rewrite Hr. exists r.
  rewrite <- Hwin. split; [|split].
  - rewrite Hwin at 1. by rewrite length_take, length_drop.
  - rewrite Hlen, Hwin. by rewrite length_take, length_drop.
  - by apply for_each_Forall2.
Qed.

Lemma list_page_bounds_witness :
  list_search (query (Request ∅ "" (Query.Build 28 10 (Some "u1") None)
                        Sample.u1))
  = Normal (<["ownerId" := JStr "u1"]> ∅)
  /\ forallb has_ObjectID (collection (collection_of viewers) Sample.thirty)
     = true
  /\ 1 <= Query.limit (query (Request ∅ "" (Query.Build 28 10 (Some "u1") None)
                               Sample.u1))
  /\ length (List.filter (matches (<["ownerId" := JStr "u1"]> ∅))
               (collection (collection_of viewers) Sample.thirty)) = 30
  /\ exists results,
       handler viewers GET_collection Sample.rt
         (Request ∅ "" (Query.Build 28 10 (Some "u1") None) Sample.u1)
         Sample.thirty
       = (Normal (Page
            (Metadata.Build
               (min 10
                  (length (List.filter (matches (<["ownerId" := JStr "u1"]> ∅))
                             (collection (collection_of viewers)
                                Sample.thirty))
                   - 28))
               28 10
               (length (List.filter (matches (<["ownerId" := JStr "u1"]> ∅))
                          (collection (collection_of viewers) Sample.thirty))))
            results),
          Sample.thirty).
Proof.
  assert (list_search (query (Request ∅ "" (Query.Build 28 10 (Some "u1") None)
                                Sample.u1))
          = Normal (<["ownerId" := JStr "u1"]> ∅)) as H1 by reflexivity.
  assert (forallb has_ObjectID
            (collection (collection_of viewers) Sample.thirty) = true) as H2
    by (vm_compute; reflexivity).
  assert (1 <= Query.limit (query (Request ∅ ""
                                     (Query.Build 28 10 (Some "u1") None)
                                     Sample.u1))) as H3
    by (simpl; lia).
  split; [exact H1|]. split; [exact H2|]. split; [exact H3|].
  split; [vm_compute; reflexivity|].
  destruct (list_page_bounds viewers Sample.rt
              (Request ∅ "" (Query.Build 28 10 (Some "u1") None) Sample.u1)
              Sample.thirty (<["ownerId" := JStr "u1"]> ∅) H1 H2 H3)
    as (results & Hpage & _).
  exists results. exact Hpage.
Defined.






(** ** Tokens *)

Lemma validate_credentials token a :
  Auth.validate token = Normal a ->
  Auth.isValid a = true
  /\ Credentials.isMachine (Auth.credentials a)
     = strict_eq (prop token "gty") (JStr "client-credentials")
  /\ Credentials.user (Auth.credentials a) = prop token "sub".
Proof.
  unfold Auth.validate.
  destruct (truthy (prop token "scopes")); cbn [and_then].
  - destruct (prop token "scopes"); try done. by intros [= <-].
  - by intros [= <-].
Qed.



(** X18: the strategy does not ask for a [sub] claim ([sub: false]), and
    [validate] takes [token.sub] as it is.  With a token that has none,
    a create without [ownerId] is accepted all the same (the generated
    id being new), and the viewer it answers has [undefined] as owner,
    creator and updator. *)
Theorem token_without_sub_creates_ownerless_viewer token a rt body id q w :
  Auth.validate token = Normal a ->
  token !! "sub" = None ->
  body !! "ownerId" = None ->
  existsb (has_id (JObjectID (generated_id rt))) (collection "viewers" w)
  = false ->
  exists created w',
    Viewers.POST_viewers rt (Request body id q (Auth.credentials a)) w
    = (Normal (Resource created), w')
    /\ created !! "ownerId" = Some JUndefined
    /\ created !! "creatorId" = Some JUndefined
    /\ created !! "updatorId" = Some JUndefined.
Proof.
  intros (_ & _ & Hu)%validate_credentials Hsub Hp Hfresh.
  assert (Credentials.user (Auth.credentials a) = JUndefined) as Hundef.
  { rewrite Hu. unfold prop. by rewrite Hsub. }
  destruct (viewer_create_default_owner rt
              (Request body id q (Auth.credentials a)) w Hp Hfresh)
    as (created & w' & Hpost & Hown & Hcre & _).
  exists created, w'. split; [done|].
  assert (created !! "updatorId"
          = Some (Credentials.user
                    (credentials (Request body id q (Auth.credentials a)))))
    as Hupd.
  { revert Hpost. rewrite POST_viewers_eq. cbv zeta.
    destruct (cannot_set_owner _ _ _) as [[|]| |]; try done.
    destruct (machine_owns_itself _ _); [done|].
    destruct (existsb _ _); [done|].
    intros [= <- _]. by rewrite exposed_lookup by done. }
  cbn [credentials] in *. by rewrite Hundef in *.
Qed.

Lemma token_without_sub_creates_ownerless_viewer_witness :
  Auth.validate (object [("gty", JStr "client-credentials")])
  = Normal (Auth.Build true (Credentials.Build true JUndefined []))
  /\ (object [("gty", JStr "client-credentials")] : doc) !! "sub" = None
  /\ (object [("sessionId", JStr Sample.session_a)] : doc) !! "ownerId" = None
  /\ existsb (has_id (JObjectID (generated_id Sample.rt)))
       (collection "viewers" start) = false
  /\ exists created w',
       Viewers.POST_viewers Sample.rt
         (Request (object [("sessionId", JStr Sample.session_a)]) ""
            Sample.no_query
            (Auth.credentials
               (Auth.Build true (Credentials.Build true JUndefined []))))
         start
       = (Normal (Resource created), w')
       /\ created !! "ownerId" = Some JUndefined
       /\ created !! "creatorId" = Some JUndefined
       /\ created !! "updatorId" = Some JUndefined.
Proof.
  split; [reflexivity|]. split; [reflexivity|]. split; [reflexivity|].
  split; [reflexivity|].
  exact (token_without_sub_creates_ownerless_viewer
           (object [("gty", JStr "client-credentials")]) _ Sample.rt
           (object [("sessionId", JStr Sample.session_a)]) "" Sample.no_query
           start eq_refl eq_refl eq_refl eq_refl).
Defined.

(** ** Create, then delete *)




(** ** The records sent *)

Lemma handler_records_ok (P : string * Event.t -> Prop) r rt request w :
  viewers_ok (collection "viewers" w) ->
  (forall h body,
     body !! "id" = Some (JStr h) ->
     P ("viewer created",
        Event.Build "viewer created" (eventApi_token w) (JStr h) body)
     /\ P ("viewer deleted",
           Event.Build "viewer deleted" (eventApi_token w) (JStr h) body)) ->
  (forall body,
     body !! "id" = None ->
     P ("viewer updated",
        Event.Build "viewer updated" (eventApi_token w) JUndefined body)) ->
  Forall P (socket_emitted w) ->
  Forall P (socket_emitted (snd (handler viewers r rt request w))).
Proof.
  intros Hok Hid Hnoid Hall. destruct r; unfold handler.
  - unfold Viewers.GET_viewers. by rewrite list_route_world.
  - rewrite POST_viewers_eq. cbv zeta.
    destruct (cannot_set_owner _ _ _) as [[|]| |]; try done.
    destruct (machine_owns_itself _ _); [done|].
    destruct (existsb _ _); [done|].
    cbn [snd socket_emitted]. apply Forall_app. split; [done|].
    constructor; [|constructor].
    destruct (id_from__id_keys (new_viewer rt request) (generated_id rt))
      as [_ Hkey].
    unfold prop. rewrite Hkey. by apply Hid.
  - by rewrite GET_viewers_id_world.
  - rewrite PUT_viewers_id_eq.
    destruct (ObjectID _) as [o| |]; [|done..].
    destruct (first_match _ _) as [d|] eqn:Hd; [|done]. cbv zeta.
    destruct (cannot_set_owner _ _ _) as [[|]| |]; try done.
    destruct (machine_owns_itself _ _); [done|].
    cbn [snd socket_emitted]. apply Forall_app. split; [done|].
    constructor; [|constructor].
    destruct (first_match_viewer _ _ _ Hok Hd) as [Hdoc _].
    assert ((viewer_set rt request d ∪ d) !! "id" = None) as Hkey.
    { rewrite lookup_union_r by reflexivity. by apply viewer_document_id. }
    unfold prop. rewrite Hkey. by apply Hnoid.
  - rewrite DELETE_viewers_id_eq.
    destruct (ObjectID _) as [o| |] eqn:Ho; [|done..].
    apply ObjectID_Normal in Ho as [_ ->].
    destruct (first_match _ _) as [d|] eqn:Hd; [|done].
    destruct (first_match_viewer _ _ _ Hok Hd) as [_ Hoid].
    rewrite (id_from__id_ObjectID _ _ Hoid).
    cbn [snd socket_emitted]. apply Forall_app. split; [done|].
    constructor; [|constructor].
    destruct (id_from__id_keys d (string_map lower_hex (params_id request)))
      as [_ Hkey].
    unfold prop. rewrite Hkey. by apply Hid.
Qed.

(** X20: every record the viewer service has ever sent, in any
    reachable world, carries its own name in [event], and is one of
    three kinds: a ['viewer created'] or ['viewer deleted'] record whose
    [viewerId] is the string [id] of the viewer it carries, or a
    ['viewer updated'] record whose viewer has no [id] and whose
    [viewerId] is [undefined]. *)
Theorem reachable_records w :
  reachable w ->
  Forall (fun record : string * Event.t =>
            Event.event (snd record) = fst record
            /\ (((fst record = "viewer created"
                  \/ fst record = "viewer deleted")
                 /\ exists h,
                      Event.viewerId (snd record) = JStr h
                      /\ Event.viewer (snd record) !! "id" = Some (JStr h))
                \/ (fst record = "viewer updated"
                    /\ Event.viewerId (snd record) = JUndefined
                    /\ Event.viewer (snd record) !! "id" = None)))
         (socket_emitted w).
Proof.
  induction 1 as [|w r rt request Hw IH|w t _ IH].
  - constructor.
  - apply handler_records_ok; [by apply reachable_ok| | |done].
    + intros h body Hbody. split; (split; [done|]); left;
        (split; [by (left + right)|]); by exists h.
    + intros body Hbody. split; [done|]. by right.
  - done.
Qed.

Lemma reachable_records_witness :
  reachable (snd (handler viewers PUT_item Sample.later Sample.update_request
                    Sample.after_create))
  /\ length (socket_emitted
               (snd (handler viewers PUT_item Sample.later
                       Sample.update_request Sample.after_create))) = 2
  /\ Forall (fun record : string * Event.t =>
               Event.event (snd record) = fst record
               /\ (((fst record = "viewer created"
                     \/ fst record = "viewer deleted")
                    /\ exists h,
                         Event.viewerId (snd record) = JStr h
                         /\ Event.viewer (snd record) !! "id" = Some (JStr h))
                   \/ (fst record = "viewer updated"
                       /\ Event.viewerId (snd record) = JUndefined
                       /\ Event.viewer (snd record) !! "id" = None)))
            (socket_emitted
               (snd (handler viewers PUT_item Sample.later
                       Sample.update_request Sample.after_create))).
Proof.
  assert (reachable
            (snd (handler viewers PUT_item Sample.later Sample.update_request
                    Sample.after_create))) as H1
    by exact (reachable_request _ PUT_item Sample.later Sample.update_request
                (reachable_request start POST_collection Sample.rt
                   Sample.create_request reachable_start)).
  split; [exact H1|]. split; [reflexivity|].
  exact (reachable_records _ H1).
Defined.
